(** * tools/codegen/gen_backend_stubs.py

  A shallow embedding of the backend stub generator: the loading of a
  backend declaration ([parse_backend_yaml]), its resolution against
  the grouped canonical registry ([native_to_external]) and the
  emission driver ([main]) with its three [fm.write] calls.

  Python values that the code never inspects by type are kept as the
  loader's values ([yaml]); Python dictionaries are insertion-ordered
  association lists ([PyDict]), because the validation loop of
  [parse_backend_yaml] walks [metadata.keys()] in insertion order;
  exceptions are the left summand of [result]; the output directory
  is a finite map from file names to contents. *)

From Stdlib Require Import String Ascii List Bool Permutation.
From stdpp Require Import base option list strings gmap.

Local Open Scope string_scope.

(** ** Exceptions and the error monad *)

#[warnings="-register-all"]
Inductive yaml : Type :=
| YNull
| YBool (b : bool)
| YInt (z : Z)
| YStr (s : string)
| YList (l : list yaml)
| YDict (d : list (string * yaml)).

(** The exceptions this module can raise.  [AssertionError] carries the
  message ([""] for a bare [assert]); [KeyError] the missing key;
  [TypeError] is Python's answer to iterating a value that is not
  iterable; [ParseError] is the failure of [OperatorName.parse] on the
  value it was given. *)
Inductive exn : Type :=
| AssertionError (msg : string)
| KeyError (key : string)
| TypeError
| ParseError (v : yaml).

Inductive result (A : Type) : Type :=
| Ok (a : A)
| Raise (e : exn).
Arguments Ok {A} a.
Arguments Raise {A} e.

Definition bind {A B} (r : result A) (k : A -> result B) : result B :=
  match r with
  | Ok a => k a
  | Raise e => Raise e
  end.

Notation "x <- r ;; k" := (bind r (fun x => k))
  (at level 100, r at next level, right associativity).

Definition is_ok {A} (r : result A) : bool :=
  match r with Ok _ => true | Raise _ => false end.

(** ** Python dictionaries: insertion-ordered association lists *)

Module PyDict.
Section Dict.
Context {K V : Type} `{EqDecision K}.

Definition t := list (K * V).

Definition empty : list (K * V) := [].

(** [d[k] = v]: an existing key keeps its position, a new key goes
    last. *)
Fixpoint set (k : K) (v : V) (d : list (K * V)) : list (K * V) :=
  match d with
  | [] => [(k, v)]
  | (k', v') :: d' =>
      if decide (k' = k) then (k', v) :: d' else (k', v') :: set k v d'
  end.

(** [d.get(k, None)] *)
Fixpoint get (k : K) (d : list (K * V)) : option V :=
  match d with
  | [] => None
  | (k', v') :: d' => if decide (k' = k) then Some v' else get k d'
  end.

(** [k in d] *)
Definition mem (k : K) (d : list (K * V)) : bool :=
  match get k d with Some _ => true | None => false end.

(** [d.keys()], in insertion order *)
Definition keys (d : list (K * V)) : list K := map fst d.
End Dict.
End PyDict.

(** ** tools.codegen.model *)

Module OperatorName.

(** Modelled from the spec: the class [OperatorName] of
    tools/codegen/model.py is not part of the sources at hand.  The
    data model gives it three fields, a namespace, a base name and an
    optional overload qualifier, with equality over all three. *)
Record t : Type := mk {
  namespace : string;
  base_name : string;
  overload : option string
}.

#[global] Instance eq_dec : EqDecision t.
Proof. solve_decision. Defined.

(** [split_scope s] cuts [s] at its first ["::"]. *)
Fixpoint split_scope (s : string) : option (string * string) :=
  match s with
  | EmptyString => None
  | String c s' =>
      match s' with
      | String c' rest =>
          if (Ascii.eqb c ":" && Ascii.eqb c' ":")%bool
          then Some (EmptyString, rest)
          else match split_scope s' with
               | Some (a, b) => Some (String c a, b)
               | None => None
               end
      | EmptyString => None
      end
  end.

(** [split_dot s] cuts [s] at its first ["."]. *)
Fixpoint split_dot (s : string) : option (string * string) :=
  match s with
  | EmptyString => None
  | String c s' =>
      if Ascii.eqb c "."
      then Some (EmptyString, s')
      else match split_dot s' with
           | Some (a, b) => Some (String c a, b)
           | None => None
           end
  end.

Definition nonempty (s : string) : bool :=
  match s with EmptyString => false | String _ _ => true end.

(** Modelled from the spec: the base name with its optional
    [.overload] suffix. *)
Definition parse_local (ns rest : string) : option t :=
  match split_dot rest with
  | Some (b, o) =>
      if (nonempty b && nonempty o)%bool then Some (mk ns b (Some o)) else None
  | None =>
      if nonempty rest then Some (mk ns rest None) else None
  end.

(** Modelled from the spec: [OperatorName.parse], over the grammar
    [[namespace::]base_name[.overload]]; [None] is the spec's
    [ParseError].  A text without a namespace gets the empty
    namespace, which is how the record, whose namespace is a plain
    string, tells the two forms apart. *)
Definition parse (text : string) : option t :=
  match split_scope text with
  | Some (ns, rest) => if nonempty ns then parse_local ns rest else None
  | None => parse_local EmptyString text
  end.

(** Modelled from the spec: the canonical text form,
    [namespace::base_name.overload] or [namespace::base_name], the
    namespace prefix being left out when there is none. *)
Definition format (n : t) : string :=
  (if nonempty (namespace n) then namespace n +:+ "::" else "")
  +:+ base_name n
  +:+ match overload n with Some o => "." +:+ o | None => "" end.

End OperatorName.

(** Modelled from the spec: a [NativeFunction] is one parsed operator,
    its name reached from the code as [f.func.name], with its signature
    and the native dispatch table of the canonical registry. *)
Record FunctionSchema : Type := {
  name : OperatorName.t;
  signature : string
}.

Record NativeFunction : Type := {
  func : FunctionSchema;
  dispatch : list (string * string)
}.

(** Modelled from the spec: the functional, in-place and out-of-place
    variants of one operation, each slot present or not. *)
Record NativeFunctionsGroup : Type := {
  functional : option NativeFunction;
  inplace : option NativeFunction;
  out : option NativeFunction
}.

(** [Union[NativeFunction, NativeFunctionsGroup]], told apart in the
    code with [isinstance]. *)
Inductive grouped_native_function : Type :=
| Function (f : NativeFunction)
| FunctionsGroup (g : NativeFunctionsGroup).

(** Modelled from the spec: [g.functions()], the variants that are
    present, slot by slot. *)
Definition functions (g : NativeFunctionsGroup) : list NativeFunction :=
  omap id [functional g; inplace g; out g].

(** [ExternalBackendMetadata(op_name, backend, is_autograd=...)].  The
    constructor stores its arguments as they come: [backend] is the
    value read from the declaration, whatever it is. *)
Record ExternalBackendMetadata : Type := {
  operator : OperatorName.t;
  backend : yaml;
  is_autograd : bool
}.

(** [ExternalBackendFunction(f, m)] *)
Record ExternalBackendFunction : Type := {
  native_function : NativeFunction;
  metadata : option ExternalBackendMetadata
}.

(** Modelled from the spec: the group of resolved variants, with the
    variant slots of [NativeFunctionsGroup]. *)
Record ExternalBackendFunctionsGroup : Type := {
  ext_functional : option ExternalBackendFunction;
  ext_inplace : option ExternalBackendFunction;
  ext_out : option ExternalBackendFunction
}.

Inductive external_backend_function : Type :=
| ExternalFunction (f : ExternalBackendFunction)
| ExternalFunctionsGroup (g : ExternalBackendFunctionsGroup).

Definition ext_functions (g : ExternalBackendFunctionsGroup)
  : list ExternalBackendFunction :=
  omap id [ext_functional g; ext_inplace g; ext_out g].

(** The body of the [isinstance(g, NativeFunction)] branch of
    [native_to_external]: [ExternalBackendFunction(f, metadata.get(f.func.name, None))]. *)
Definition resolve_function
    (metadata : list (OperatorName.t * ExternalBackendMetadata))
    (f : NativeFunction) : ExternalBackendFunction :=
  let m := PyDict.get (name (func f)) metadata in
  {| native_function := f; metadata := m |}.

(** Modelled from the spec:
    [ExternalBackendFunctionsGroup.from_function_group(g, metadata)]
    resolves each present variant on its own against [metadata] and
    keeps the variant slots. *)
Definition from_function_group (g : NativeFunctionsGroup)
    (metadata : list (OperatorName.t * ExternalBackendMetadata))
  : ExternalBackendFunctionsGroup :=
  {| ext_functional := resolve_function metadata <$> functional g;
     ext_inplace := resolve_function metadata <$> inplace g;
     ext_out := resolve_function metadata <$> out g |}.

(** ** parse_backend_yaml *)

(** [isinstance(yaml_values, dict)] *)
Definition is_dict (v : yaml) : bool :=
  match v with YDict _ => true | _ => false end.

(** [yaml_values[key]] on a value that is known to be a [dict]. *)
Definition getitem (v : yaml) (key : string) : result yaml :=
  match v with
  | YDict d =>
      match PyDict.get key d with
      | Some x => Ok x
      | None => Raise (KeyError key)
      end
  | _ => Raise TypeError
  end.

(** What [for op in v] walks through: the items of a list, the
    one-character strings of a string, the keys of a mapping; any other
    loaded value is not iterable. *)
Definition py_iter (v : yaml) : result (list yaml) :=
  match v with
  | YList l => Ok l
  | YStr s => Ok (map (fun c => YStr (String c EmptyString)) (list_ascii_of_string s))
  | YDict d => Ok (map (fun kv => YStr (fst kv)) d)
  | _ => Raise TypeError
  end.

(** [OperatorName.parse(op)] on a loaded value: only text can match the
    grammar. *)
Definition OperatorName_parse (op : yaml) : result OperatorName.t :=
  match op with
  | YStr s =>
      match OperatorName.parse s with
      | Some n => Ok n
      | None => Raise (ParseError op)
      end
  | _ => Raise (ParseError op)
  end.

(** The body shared by the two loops of lines 29-36:
    [[
      for op in ops:
          op_name = OperatorName.parse(op)
          m = ExternalBackendMetadata(op_name, backend, is_autograd=flag)
          metadata[m.operator] = m
    ]] *)
Fixpoint add_metadata (backend : yaml) (flag : bool) (ops : list yaml)
    (metadata : list (OperatorName.t * ExternalBackendMetadata))
  : result (list (OperatorName.t * ExternalBackendMetadata)) :=
  match ops with
  | [] => Ok metadata
  | op :: ops' =>
      op_name <- OperatorName_parse op ;;
      let m := {| operator := op_name; backend := backend; is_autograd := flag |} in
      add_metadata backend flag ops' (PyDict.set (operator m) m metadata)
  end.

(** Lines 28-36: the metadata mapping of a declaration. *)
Definition build_metadata (backend supported supported_autograd : yaml)
  : result (list (OperatorName.t * ExternalBackendMetadata)) :=
  ops <- py_iter supported ;;
  metadata <- add_metadata backend false ops PyDict.empty ;;
  ops_autograd <- py_iter supported_autograd ;;
  add_metadata backend true ops_autograd metadata.

(** The argument of the dictionary comprehension of lines 38-41,
    [concatMap(lambda f: [f] if isinstance(f, NativeFunction) else list(f.functions()), ...)]. *)
Definition flatten_native
    (grouped_native_functions : list grouped_native_function)
  : list NativeFunction :=
  concat (map (fun f => match f with
                        | Function f => [f]
                        | FunctionsGroup g => functions g
                        end) grouped_native_functions).

(** [{f.func.name: f for f in ...}] *)
Definition native_functions_map_of
    (grouped_native_functions : list grouped_native_function)
  : list (OperatorName.t * NativeFunction) :=
  fold_left (fun d f => PyDict.set (name (func f)) f d)
            (flatten_native grouped_native_functions) PyDict.empty.

(** Lines 43-53.  The [assert_never] branch has no counterpart: the
    union has two cases. *)
Definition native_to_external
    (metadata : list (OperatorName.t * ExternalBackendMetadata))
    (g : grouped_native_function) : external_backend_function :=
  match g with
  | Function f => ExternalFunction (resolve_function metadata f)
  | FunctionsGroup g => ExternalFunctionsGroup (from_function_group g metadata)
  end.

Definition invalid_operator_name (op_name : OperatorName.t) : exn :=
  AssertionError ("Found an invalid operator name: " +:+ OperatorName.format op_name).

(** Lines 54-56:
    [[
      for op_name in metadata.keys():
          if op_name not in native_functions_map:
              raise AssertionError(f"Found an invalid operator name: {op_name}")
    ]] *)
Fixpoint check_operator_names (op_names : list OperatorName.t)
    (native_functions_map : list (OperatorName.t * NativeFunction))
  : result unit :=
  match op_names with
  | [] => Ok tt
  | op_name :: rest =>
      if PyDict.mem op_name native_functions_map
      then check_operator_names rest native_functions_map
      else Raise (invalid_operator_name op_name)
  end.

(** [parse_backend_yaml], from the loaded document [yaml_values] on (the
    file has been opened and read by then). *)
Definition parse_backend_yaml (yaml_values : yaml)
    (grouped_native_functions : list grouped_native_function)
  : result (yaml * list external_backend_function) :=
  if negb (is_dict yaml_values) then Raise (AssertionError "") else
  cpp_namespace <- getitem yaml_values "cpp_namespace" ;;
  backend <- getitem yaml_values "backend" ;;
  supported <- getitem yaml_values "supported" ;;
  supported_autograd <- getitem yaml_values "autograd" ;;
  metadata <- build_metadata backend supported supported_autograd ;;
  let native_functions_map := native_functions_map_of grouped_native_functions in
  _ <- check_operator_names (PyDict.keys metadata) native_functions_map ;;
  Ok (cpp_namespace, map (native_to_external metadata) grouped_native_functions).

(** ** The collaborators of [main] *)

(** The members of [tools.codegen.utils.Target] that [main] uses. *)
Inductive Target : Type :=
| NAMESPACED_DECLARATION
| NAMESPACED_DEFINITION
| REGISTRATION.

(** A value of a template environment: the namespace as it was read, or
    a list of generated fragments. *)
Inductive env_value : Type :=
| EnvValue (v : yaml)
| EnvFragments (fragments : list string).

(** What the code takes from modules that are not part of the sources at
    hand, as parameters: the text of each fragment
    ([tools.codegen.dest]), the [is_autograd_kernel] property of a
    group ([tools.codegen.model]) and the substitution of an
    environment into the template of an output file
    ([tools.codegen.gen.FileManager]). *)
Record Collaborators : Type := {
  compute_native_function_declaration : external_backend_function -> list string;
  fallback_fragment : Target -> ExternalBackendFunction -> string;
  registration_fragment : NativeFunction -> ExternalBackendMetadata -> string;
  group_is_autograd_kernel : ExternalBackendFunctionsGroup -> bool;
  substitute_with_template : string -> list (string * env_value) -> string
}.

(** [tools.codegen.utils.concatMap] *)
Definition concatMap {A B} (f : A -> list B) (xs : list A) : list B :=
  concat (map f xs).

(** Modelled from the spec: what [dest.GenExternalAtenFallback(target)]
    yields for one resolved function.  The registration target emits a
    fragment only when the metadata is not [None]; the two fallback
    targets emit one fragment whatever the metadata. *)
Definition gen_function (C : Collaborators) (target : Target)
    (f : ExternalBackendFunction) : list string :=
  match target with
  | REGISTRATION =>
      match metadata f with
      | Some m => [registration_fragment C (native_function f) m]
      | None => []
      end
  | _ => [fallback_fragment C target f]
  end.

(** Modelled from the spec: [dest.GenExternalAtenFallback(target)] on a
    resolved entry; a group yields the fragments of its present
    variants. *)
Definition GenExternalAtenFallback (C : Collaborators) (target : Target)
    (e : external_backend_function) : list string :=
  match e with
  | ExternalFunction f => gen_function C target f
  | ExternalFunctionsGroup g => concatMap (gen_function C target) (ext_functions g)
  end.

(** Modelled from the spec: the [is_autograd_kernel] property by which
    [main] splits the registrations, the [is_autograd] flag of the
    entry's metadata.  An entry without metadata has no flag to be
    true; the flag of a group is left to the collaborator. *)
Definition is_autograd_kernel (C : Collaborators)
    (e : external_backend_function) : bool :=
  match e with
  | ExternalFunction f =>
      match metadata f with
      | Some m => is_autograd m
      | None => false
      end
  | ExternalFunctionsGroup g => group_is_autograd_kernel C g
  end.

(** Modelled from the spec: [fm.write(name, env)] puts the substituted
    template under [name] in the output directory. *)
Definition fm_write (C : Collaborators) (filename : string)
    (env : list (string * env_value)) (fs : gmap string string)
  : gmap string string :=
  <[filename := substitute_with_template C filename env]> fs.

(** ** main *)

(** [[e for e in external_backend_functions if not e.is_autograd_kernel]] *)
Definition plain_entries (C : Collaborators)
    (external_backend_functions : list external_backend_function)
  : list external_backend_function :=
  List.filter (fun e => negb (is_autograd_kernel C e)) external_backend_functions.

(** [[e for e in external_backend_functions if e.is_autograd_kernel]] *)
Definition autograd_entries (C : Collaborators)
    (external_backend_functions : list external_backend_function)
  : list external_backend_function :=
  List.filter (fun e => is_autograd_kernel C e) external_backend_functions.

Definition dispatch_registrations (C : Collaborators)
    (external_backend_functions : list external_backend_function) : list string :=
  concatMap (GenExternalAtenFallback C REGISTRATION)
            (plain_entries C external_backend_functions).

Definition dispatch_autograd_registrations (C : Collaborators)
    (external_backend_functions : list external_backend_function) : list string :=
  concatMap (GenExternalAtenFallback C REGISTRATION)
            (autograd_entries C external_backend_functions).

(** The environment of [aten_xla_type.h], lines 86-89. *)
Definition env_aten_xla_type_h (C : Collaborators) (cpp_namespace : yaml)
    (external_backend_functions : list external_backend_function)
  : list (string * env_value) :=
  [("cpp_namespace", EnvValue cpp_namespace);
   ("dispatch_xla_declarations",
    EnvFragments (concatMap (compute_native_function_declaration C)
                            external_backend_functions))].

(** The environment of [aten_xla_type_default.h], lines 91-96. *)
Definition env_aten_xla_type_default_h (C : Collaborators) (cpp_namespace : yaml)
    (external_backend_functions : list external_backend_function)
  : list (string * env_value) :=
  [("cpp_namespace", EnvValue cpp_namespace);
   ("dispatch_aten_fallback_declarations",
    EnvFragments (concatMap (GenExternalAtenFallback C NAMESPACED_DECLARATION)
                            external_backend_functions))].

(** The environment of [aten_xla_type_default.cpp], lines 98-111. *)
Definition env_aten_xla_type_default_cpp (C : Collaborators) (cpp_namespace : yaml)
    (external_backend_functions : list external_backend_function)
  : list (string * env_value) :=
  [("cpp_namespace", EnvValue cpp_namespace);
   ("dispatch_aten_fallback_definitions",
    EnvFragments (concatMap (GenExternalAtenFallback C NAMESPACED_DEFINITION)
                            external_backend_functions));
   ("dispatch_registrations",
    EnvFragments (dispatch_registrations C external_backend_functions));
   ("dispatch_autograd_registrations",
    EnvFragments (dispatch_autograd_registrations C external_backend_functions))].

(** The three [fm.write] calls of [main], in their order. *)
Definition write_artifacts (C : Collaborators) (cpp_namespace : yaml)
    (external_backend_functions : list external_backend_function)
    (fs : gmap string string) : gmap string string :=
  let fs := fm_write C "aten_xla_type.h"
              (env_aten_xla_type_h C cpp_namespace external_backend_functions) fs in
  let fs := fm_write C "aten_xla_type_default.h"
              (env_aten_xla_type_default_h C cpp_namespace external_backend_functions) fs in
  fm_write C "aten_xla_type_default.cpp"
    (env_aten_xla_type_default_cpp C cpp_namespace external_backend_functions) fs.

(** [main], from the loaded registry and the loaded declaration on: the
    outcome of the run and the output directory it leaves.  An exception
    of [parse_backend_yaml] (line 80) ends the run where it is raised.
    Lines 82 and 84 load a second view of the registry and a selector
    that [main] then does not use; they have no part here. *)
Definition main (C : Collaborators) (source_yaml : yaml)
    (grouped_native_functions : list grouped_native_function)
    (fs : gmap string string) : result unit * gmap string string :=
  match parse_backend_yaml source_yaml grouped_native_functions with
  | Raise e => (Raise e, fs)
  | Ok (cpp_namespace, external_backend_functions) =>
      (Ok tt, write_artifacts C cpp_namespace external_backend_functions fs)
  end.

(** The names of the three output files. *)
Definition artifact_names : list string :=
  ["aten_xla_type.h"; "aten_xla_type_default.h"; "aten_xla_type_default.cpp"].

(** ** The vocabulary of the properties *)

(** A backend declaration with its four fields in their expected
    shape. *)
Record BackendDeclaration : Type := {
  decl_cpp_namespace : string;
  decl_backend : string;
  decl_supported : list string;
  decl_autograd : list string
}.

(** The loaded document [yaml_values] carries the declaration [d]: it
    is a mapping whose four required keys hold the fields of [d] (other
    keys, and the order of the keys, are free). *)
Definition declares (yaml_values : yaml) (d : BackendDeclaration) : Prop :=
  exists l,
    yaml_values = YDict l /\
    PyDict.get "cpp_namespace" l = Some (YStr (decl_cpp_namespace d)) /\
    PyDict.get "backend" l = Some (YStr (decl_backend d)) /\
    PyDict.get "supported" l = Some (YList (map YStr (decl_supported d))) /\
    PyDict.get "autograd" l = Some (YList (map YStr (decl_autograd d))).

(** The operator names of a list of texts, when all of them parse. *)
Definition parse_names (texts : list string) : option (list OperatorName.t) :=
  mapM OperatorName.parse texts.

(** The operator names the canonical registry knows. *)
Definition registry_names
    (grouped_native_functions : list grouped_native_function)
  : list OperatorName.t :=
  map (fun f => name (func f)) (flatten_native grouped_native_functions).

(** The metadata entry of lines 31 and 35 for a parsed name. *)
Definition metadata_entry (backend : yaml) (flag : bool) (op_name : OperatorName.t)
  : ExternalBackendMetadata :=
  {| operator := op_name; backend := backend; is_autograd := flag |}.

(** The mapping after the assignments [metadata[n] = m] for the names
    [ns], in their order. *)
Definition insert_all (backend : yaml) (flag : bool) (ns : list OperatorName.t)
    (metadata : list (OperatorName.t * ExternalBackendMetadata))
  : list (OperatorName.t * ExternalBackendMetadata) :=
  fold_left (fun d n => PyDict.set n (metadata_entry backend flag n) d) ns metadata.

(** The mapping of a declaration whose names are [sup] and [aut]: the
    plain names first, the autograd names second. *)
Definition declared_metadata (d : BackendDeclaration) (sup aut : list OperatorName.t)
  : list (OperatorName.t * ExternalBackendMetadata) :=
  insert_all (YStr (decl_backend d)) true aut
    (insert_all (YStr (decl_backend d)) false sup PyDict.empty).

(** The registry entry a resolved entry was made from. *)
Definition underlying (e : external_backend_function) : grouped_native_function :=
  match e with
  | ExternalFunction f => Function (native_function f)
  | ExternalFunctionsGroup g =>
      FunctionsGroup {| functional := native_function <$> ext_functional g;
                        inplace := native_function <$> ext_inplace g;
                        out := native_function <$> ext_out g |}
  end.

(** The resolved functions of a list of entries, groups opened up. *)
Definition flatten_external (es : list external_backend_function)
  : list ExternalBackendFunction :=
  concatMap (fun e => match e with
                      | ExternalFunction f => [f]
                      | ExternalFunctionsGroup g => ext_functions g
                      end) es.


(** The required fields, in the order [parse_backend_yaml] reads them. *)
Definition required_fields : list string :=
  ["cpp_namespace"; "backend"; "supported"; "autograd"].

Definition is_str (v : yaml) : bool :=
  match v with YStr _ => true | _ => false end.

Definition is_list_of_str (v : yaml) : bool :=
  match v with YList l => forallb is_str l | _ => false end.

(** The shape the spec expects of a declaration: the four fields are
    there, two strings and two lists of strings. *)
Definition expected_shape (yaml_values : yaml) : bool :=
  match yaml_values with
  | YDict l =>
      match PyDict.get "cpp_namespace" l, PyDict.get "backend" l,
            PyDict.get "supported" l, PyDict.get "autograd" l with
      | Some ns, Some b, Some s, Some a =>
          is_str ns && is_str b && is_list_of_str s && is_list_of_str a
      | _, _, _, _ => false
      end
  | _ => false
  end.


(** ** Runs, with what is incidental left open

    [parse_backend_yaml] above walks [metadata.keys()] in insertion
    order, which is what a dictionary does in today's Python; it was
    the order of the hash table before, which changes from one process
    to the next.  To speak of two runs, the order of that walk is left
    open here, as is the content of the output directory before the
    run. *)

(** Lines 20-36: the namespace and the metadata mapping. *)
Definition load_declaration (yaml_values : yaml)
  : result (yaml * list (OperatorName.t * ExternalBackendMetadata)) :=
  if negb (is_dict yaml_values) then Raise (AssertionError "") else
  cpp_namespace <- getitem yaml_values "cpp_namespace" ;;
  backend <- getitem yaml_values "backend" ;;
  supported <- getitem yaml_values "supported" ;;
  supported_autograd <- getitem yaml_values "autograd" ;;
  metadata <- build_metadata backend supported supported_autograd ;;
  Ok (cpp_namespace, metadata).

(** Lines 38-57, the loop of line 54 going through the keys in the
    order [walk]. *)
Definition validate_and_resolve (walk : list OperatorName.t)
    (cpp_namespace : yaml)
    (metadata : list (OperatorName.t * ExternalBackendMetadata))
    (grouped_native_functions : list grouped_native_function)
  : result (yaml * list external_backend_function) :=
  let native_functions_map := native_functions_map_of grouped_native_functions in
  _ <- check_operator_names walk native_functions_map ;;
  Ok (cpp_namespace, map (native_to_external metadata) grouped_native_functions).

(** [r] is the outcome of a run of [parse_backend_yaml]: that of the
    code for some order of the walk through the keys of [metadata]. *)
Definition parse_backend_yaml_run (yaml_values : yaml)
    (grouped_native_functions : list grouped_native_function)
    (r : result (yaml * list external_backend_function)) : Prop :=
  match load_declaration yaml_values with
  | Raise e => r = Raise e
  | Ok (cpp_namespace, metadata) =>
      exists walk,
        Permutation walk (PyDict.keys metadata) /\
        r = validate_and_resolve walk cpp_namespace metadata grouped_native_functions
  end.

(** [out] is the outcome of a run of [main] that found the output
    directory as [fs]. *)
Definition main_run (C : Collaborators) (source_yaml : yaml)
    (grouped_native_functions : list grouped_native_function)
    (fs : gmap string string) (out : result unit * gmap string string) : Prop :=
  exists r,
    parse_backend_yaml_run source_yaml grouped_native_functions r /\
    out = match r with
          | Raise e => (Raise e, fs)
          | Ok (cpp_namespace, external_backend_functions) =>
              (Ok tt, write_artifacts C cpp_namespace external_backend_functions fs)
          end.

(** ** A small instance to run the definitions on *)

Module Demo.

Definition op (text : string) : OperatorName.t :=
  default (OperatorName.mk "" "" None) (OperatorName.parse text).

Definition native (text : string) : NativeFunction :=
  {| func := {| name := op text; signature := "(Tensor, Tensor) -> Tensor" |};
     dispatch := [] |}.

Definition add : NativeFunction := native "aten::add.Tensor".
Definition add_ : NativeFunction := native "aten::add_.Tensor".
Definition add_out : NativeFunction := native "aten::add.out".
Definition sub : NativeFunction := native "aten::sub.Tensor".
Definition mul : NativeFunction := native "aten::mul.Tensor".

Definition registry : list grouped_native_function :=
  [FunctionsGroup {| functional := Some add; inplace := Some add_; out := Some add_out |};
   Function sub;
   Function mul].

Definition declaration (supported autograd : list string) : BackendDeclaration :=
  {| decl_cpp_namespace := "torch_xla"; decl_backend := "XLA";
     decl_supported := supported; decl_autograd := autograd |}.

Definition document (d : BackendDeclaration) : yaml :=
  YDict [("backend", YStr (decl_backend d));
         ("cpp_namespace", YStr (decl_cpp_namespace d));
         ("supported", YList (map YStr (decl_supported d)));
         ("autograd", YList (map YStr (decl_autograd d)))].

Definition collaborators : Collaborators :=
  {| compute_native_function_declaration := fun e =>
       map (fun f => "decl " +:+ OperatorName.format (name (func (native_function f))))
           (flatten_external [e]);
     fallback_fragment := fun t f =>
       match t with
       | NAMESPACED_DEFINITION => "define "
       | _ => "declare "
       end +:+ OperatorName.format (name (func (native_function f)));
     registration_fragment := fun f m =>
       "m.impl " +:+ OperatorName.format (name (func f));
     group_is_autograd_kernel := fun g =>
       existsb (fun f => match metadata f with
                         | Some m => is_autograd m
                         | None => false
                         end) (ext_functions g);
     substitute_with_template := fun filename env =>
       filename +:+ ":" +:+
       String.concat ";" (concatMap (fun kv => match snd kv with
                                               | EnvValue (YStr s) => [s]
                                               | EnvValue _ => []
                                               | EnvFragments l => l
                                               end) env) |}.

End Demo.

(** * Properties *)

(** ** Python dictionaries *)

Section PyDictFacts.
Context {K V : Type} `{EqDecision K}.
Implicit Types (k : K) (v : V) (d : list (K * V)).

Lemma dict_get_set_eq k v d : PyDict.get k (PyDict.set k v d) = Some v.
Proof.
  induction d as [|[k' v'] d IH]; simpl.
  - by rewrite decide_True.
  - destruct (decide (k' = k)) as [->|Hne]; simpl.
    + by rewrite decide_True.
    + by rewrite decide_False.
Qed.

Lemma dict_get_set_ne k k' v d :
  k ≠ k' -> PyDict.get k' (PyDict.set k v d) = PyDict.get k' d.
Proof.
  intros Hne. induction d as [|[k0 v0] d IH]; simpl.
  - by rewrite decide_False.
  - destruct (decide (k0 = k)) as [->|Hk0]; simpl.
    + by rewrite !decide_False.
    + by rewrite IH.
Qed.

Lemma dict_keys_set k k' v d :
  In k' (PyDict.keys (PyDict.set k v d)) <-> k' = k \/ In k' (PyDict.keys d).
Proof.
  unfold PyDict.keys. induction d as [|[k0 v0] d IH]; simpl.
  - intuition.
  - destruct (decide (k0 = k)) as [->|Hk0]; simpl; [intuition|].
    rewrite IH. intuition.
Qed.

Lemma dict_get_None k d : PyDict.get k d = None <-> ~ In k (PyDict.keys d).
Proof.
  unfold PyDict.keys. induction d as [|[k0 v0] d IH]; simpl.
  - intuition.
  - destruct (decide (k0 = k)) as [->|Hk0].
    + split; [discriminate|]. intros Hn. exfalso. apply Hn. by left.
    + rewrite IH. intuition.
Qed.

Lemma dict_mem_keys k d : PyDict.mem k d = true <-> In k (PyDict.keys d).
Proof.
  unfold PyDict.mem. destruct (PyDict.get k d) eqn:Hg.
  - split; [intros _|done].
    destruct (in_dec (fun x y => decide (x = y)) k (PyDict.keys d)) as [Hin|Hn]; [done|].
    apply dict_get_None in Hn. congruence.
  - split; [discriminate|]. intros Hin. by apply dict_get_None in Hg.
Qed.

Lemma dict_keys_set_NoDup k v d :
  NoDup (PyDict.keys d) -> NoDup (PyDict.keys (PyDict.set k v d)).
Proof.
  unfold PyDict.keys. induction d as [|[k0 v0] d IH]; simpl; intros Hnd.
  - constructor; [by intros ?%not_elem_of_nil|constructor].
  - apply NoDup_cons in Hnd as [Hk0 Hnd].
    destruct (decide (k0 = k)) as [->|Hne]; simpl.
    + by apply NoDup_cons.
    + apply NoDup_cons. split; [|by apply IH].
      rewrite list_elem_of_In. fold (PyDict.keys (PyDict.set k v d)).
      rewrite dict_keys_set. intros [->|Hin]; [done|].
      apply Hk0. by apply list_elem_of_In.
Qed.

End PyDictFacts.

(** ** Operator names *)

Lemma split_scope_app s a b :
  OperatorName.split_scope s = Some (a, b) -> s = a +:+ "::" +:+ b.
Proof.
  revert a b. induction s as [|c s IH]; intros a b Hs; [discriminate|].
  destruct s as [|c' rest]; [discriminate|].
  cbn [OperatorName.split_scope] in Hs.
  destruct (Ascii.eqb c ":" && Ascii.eqb c' ":")%bool eqn:Hcc.
  - apply andb_prop in Hcc as [->%Ascii.eqb_eq ->%Ascii.eqb_eq].
    by injection Hs as <- <-.
  - change (match rest with
            | EmptyString => None
            | String c'' rest' => _
            end) with (OperatorName.split_scope (String c' rest)) in Hs.
    destruct (OperatorName.split_scope (String c' rest)) as [[a' b']|];
      [|discriminate].
    injection Hs as <- <-.
    change (String c (String c' rest) = String c (a' +:+ "::" +:+ b')).
    f_equal. by apply IH.
Qed.

Lemma split_dot_app s a b :
  OperatorName.split_dot s = Some (a, b) -> s = a +:+ "." +:+ b.
Proof.
  revert a b. induction s as [|c s IH]; intros a b Hs; [discriminate|].
  cbn in Hs. destruct (Ascii.eqb c ".") eqn:Hc.
  - apply Ascii.eqb_eq in Hc as ->. by injection Hs as <- <-.
  - destruct (OperatorName.split_dot s) as [[a' b']|]; [|discriminate].
    injection Hs as <- <-.
    change (String c s = String c (a' +:+ "." +:+ b')).
    f_equal. by apply IH.
Qed.

Lemma append_empty_r (s : string) : s +:+ "" = s.
Proof.
  induction s as [|c s IH]; [done|].
  change (String c (s +:+ "") = String c s). by rewrite IH.
Qed.

Lemma append_assoc_r (a b c : string) : (a +:+ b) +:+ c = a +:+ b +:+ c.
Proof.
  induction a as [|x a IH]; [done|].
  change (String x ((a +:+ b) +:+ c) = String x (a +:+ b +:+ c)).
  by rewrite IH.
Qed.

Lemma parse_local_format ns rest n :
  OperatorName.parse_local ns rest = Some n ->
  OperatorName.namespace n = ns /\
  OperatorName.base_name n
    +:+ match OperatorName.overload n with Some o => "." +:+ o | None => "" end
  = rest.
Proof.
  unfold OperatorName.parse_local.
  destruct (OperatorName.split_dot rest) as [[b o]|] eqn:Hd.
  - destruct (_ && _)%bool; [|discriminate].
    intros [= <-]. split; [done|]. cbn. symmetry. by apply split_dot_app.
  - destruct (OperatorName.nonempty rest); [|discriminate].
    intros [= <-]. split; [done|]. apply append_empty_r.
Qed.

(** C8. Round trip of operator names: whenever [OperatorName.parse]
    accepts a text [t], in the canonical form
    [namespace::base_name] with an optional [.overload] suffix or
    without its namespace, formatting the parsed name gives back [t]
    exactly. *)
Theorem format_parse_roundtrip (t : string) (n : OperatorName.t) :
  OperatorName.parse t = Some n -> OperatorName.format n = t.
Proof.
  unfold OperatorName.parse, OperatorName.format.
  destruct (OperatorName.split_scope t) as [[ns rest]|] eqn:Hs.
  - destruct (OperatorName.nonempty ns) eqn:Hns; [|discriminate].
    intros [-> Hrest]%parse_local_format. rewrite Hns.
    apply split_scope_app in Hs as ->.
    rewrite <- Hrest. apply append_assoc_r.
  - intros [-> Hrest]%parse_local_format. done.
Qed.

Lemma format_parse_roundtrip_witness :
  OperatorName.parse "aten::add.Tensor"
    = Some (OperatorName.mk "aten" "add" (Some "Tensor")) /\
  OperatorName.format (OperatorName.mk "aten" "add" (Some "Tensor"))
    = "aten::add.Tensor".
Proof.
  split; [reflexivity|].
  apply (format_parse_roundtrip "aten::add.Tensor"). reflexivity.
Defined.

(** ** The metadata mapping *)

Lemma add_metadata_names backend flag texts ns metadata :
  parse_names texts = Some ns ->
  add_metadata backend flag (map YStr texts) metadata
  = Ok (insert_all backend flag ns metadata).
Proof.
  unfold parse_names. rewrite mapM_Some. intros Hall.
  revert metadata. induction Hall as [|t n texts ns Hp _ IH]; intros metadata.
  - reflexivity.
  - cbn [map add_metadata OperatorName_parse]. rewrite Hp. cbn [bind].
    apply IH.
Qed.

Lemma get_insert_all_notin backend flag ns metadata k :
  ~ In k ns ->
  PyDict.get k (insert_all backend flag ns metadata) = PyDict.get k metadata.
Proof.
  unfold insert_all. revert metadata.
  induction ns as [|n ns IH]; intros metadata Hn; [done|].
  cbn [fold_left]. rewrite IH.
  - apply dict_get_set_ne. intros ->. apply Hn. by left.
  - intros Hin. apply Hn. by right.
Qed.

Lemma get_insert_all_in backend flag ns metadata k :
  In k ns ->
  PyDict.get k (insert_all backend flag ns metadata)
  = Some (metadata_entry backend flag k).
Proof.
  revert metadata. induction ns as [|n ns IH]; intros metadata Hin; [done|].
  destruct (in_dec (fun x y => decide (x = y)) k ns) as [Hk|Hk].
  - apply (IH _ Hk).
  - destruct Hin as [->|Hin]; [|done].
    change (PyDict.get k (insert_all backend flag ns
              (PyDict.set k (metadata_entry backend flag k) metadata))
            = Some (metadata_entry backend flag k)).
    rewrite get_insert_all_notin by done. apply dict_get_set_eq.
Qed.

Lemma keys_insert_all backend flag ns metadata k :
  In k (PyDict.keys (insert_all backend flag ns metadata))
  <-> In k ns \/ In k (PyDict.keys metadata).
Proof.
  unfold insert_all. revert metadata.
  induction ns as [|n ns IH]; intros metadata; cbn [fold_left].
  - simpl. intuition.
  - rewrite IH, dict_keys_set. simpl. intuition.
Qed.

Lemma keys_insert_all_NoDup backend flag ns metadata :
  NoDup (PyDict.keys metadata) ->
  NoDup (PyDict.keys (insert_all backend flag ns metadata)).
Proof.
  unfold insert_all. revert metadata.
  induction ns as [|n ns IH]; intros metadata Hnd; [done|].
  cbn [fold_left]. apply IH. by apply dict_keys_set_NoDup.
Qed.

Lemma keys_declared_metadata d sup aut k :
  In k (PyDict.keys (declared_metadata d sup aut)) <-> In k (sup ++ aut).
Proof.
  unfold declared_metadata. rewrite !keys_insert_all, in_app_iff.
  unfold PyDict.empty. simpl. intuition.
Qed.

(** ** The registry mapping and the validation loop *)

Lemma keys_native_functions_map fs d0 k :
  In k (PyDict.keys
          (fold_left (fun d (f : NativeFunction) => PyDict.set (name (func f)) f d) fs d0))
  <-> In k (map (fun f => name (func f)) fs) \/ In k (PyDict.keys d0).
Proof.
  revert d0. induction fs as [|f fs IH]; intros d0; cbn [fold_left map].
  - simpl. intuition.
  - rewrite IH, dict_keys_set. simpl. intuition.
Qed.

Lemma mem_native_functions_map reg k :
  PyDict.mem k (native_functions_map_of reg) = true <-> In k (registry_names reg).
Proof.
  rewrite dict_mem_keys. unfold native_functions_map_of, registry_names.
  rewrite keys_native_functions_map. unfold PyDict.empty. simpl. intuition.
Qed.

Lemma check_operator_names_ok ks (m : list (OperatorName.t * NativeFunction)) :
  (forall k, In k ks -> PyDict.mem k m = true) ->
  check_operator_names ks m = Ok tt.
Proof.
  induction ks as [|k ks IH]; intros Hall; [done|].
  cbn [check_operator_names]. rewrite (Hall k) by (by left).
  apply IH. intros k' Hk'. apply Hall. by right.
Qed.

Lemma check_operator_names_Ok_inv ks (m : list (OperatorName.t * NativeFunction)) :
  check_operator_names ks m = Ok tt ->
  forall k, In k ks -> PyDict.mem k m = true.
Proof.
  induction ks as [|k0 ks IH]; intros Hc k Hin; [done|].
  cbn [check_operator_names] in Hc.
  destruct (PyDict.mem k0 m) eqn:Hk0; [|discriminate].
  destruct Hin as [<-|Hin]; [done|]. by apply IH.
Qed.

Lemma check_operator_names_raise ks (m : list (OperatorName.t * NativeFunction)) :
  (exists k, In k ks /\ PyDict.mem k m = false) ->
  exists k, In k ks /\ PyDict.mem k m = false /\
            check_operator_names ks m = Raise (invalid_operator_name k).
Proof.
  induction ks as [|k ks IH]; intros (k0 & Hin & Hk0); [done|].
  cbn [check_operator_names]. destruct (PyDict.mem k m) eqn:Hk.
  - destruct IH as (k1 & Hin1 & Hk1 & Hr).
    + destruct Hin as [->|Hin]; [congruence|]. by exists k0.
    + exists k1. split; [by right|done].
  - exists k. split; [by left|done].
Qed.

(** What [parse_backend_yaml] comes to on a declaration of the expected
    shape whose names all parse. *)
Lemma parse_backend_yaml_declared y d reg sup aut :
  declares y d ->
  parse_names (decl_supported d) = Some sup ->
  parse_names (decl_autograd d) = Some aut ->
  parse_backend_yaml y reg =
    (_ <- check_operator_names (PyDict.keys (declared_metadata d sup aut))
                               (native_functions_map_of reg) ;;
     Ok (YStr (decl_cpp_namespace d),
         map (native_to_external (declared_metadata d sup aut)) reg)).
Proof.
  intros (l & -> & Hns & Hb & Hs & Ha) Hsup Haut.
  unfold parse_backend_yaml, getitem, build_metadata, declared_metadata.
  cbn [is_dict negb]. rewrite Hns, Hb, Hs, Ha. cbn [bind py_iter].
  rewrite (add_metadata_names _ _ _ _ _ Hsup). cbn [bind].
  rewrite (add_metadata_names _ _ _ _ _ Haut). reflexivity.
Qed.

Lemma build_metadata_declared d sup aut :
  parse_names (decl_supported d) = Some sup ->
  parse_names (decl_autograd d) = Some aut ->
  build_metadata (YStr (decl_backend d))
                 (YList (map YStr (decl_supported d)))
                 (YList (map YStr (decl_autograd d)))
  = Ok (declared_metadata d sup aut).
Proof.
  intros Hsup Haut. unfold build_metadata, declared_metadata. cbn [py_iter bind].
  rewrite (add_metadata_names _ _ _ _ _ Hsup). cbn [bind].
  apply (add_metadata_names _ _ _ _ _ Haut).
Qed.

Lemma get_declared_metadata_autograd d sup aut op :
  In op aut ->
  PyDict.get op (declared_metadata d sup aut)
  = Some (metadata_entry (YStr (decl_backend d)) true op).
Proof. intros Hin. by apply get_insert_all_in. Qed.

Lemma get_declared_metadata_supported d sup aut op :
  In op sup -> ~ In op aut ->
  PyDict.get op (declared_metadata d sup aut)
  = Some (metadata_entry (YStr (decl_backend d)) false op).
Proof.
  intros Hin Hn. unfold declared_metadata.
  rewrite get_insert_all_notin by done. by apply get_insert_all_in.
Qed.

Lemma get_declared_metadata_Some d sup aut op m :
  PyDict.get op (declared_metadata d sup aut) = Some m ->
  In op (sup ++ aut) /\ operator m = op /\ backend m = YStr (decl_backend d).
Proof.
  intros Hg. rewrite in_app_iff.
  destruct (in_dec (fun x y => decide (x = y)) op aut) as [Ha|Ha].
  - rewrite get_declared_metadata_autograd in Hg by done.
    injection Hg as <-. auto.
  - destruct (in_dec (fun x y => decide (x = y)) op sup) as [Hs|Hs].
    + rewrite get_declared_metadata_supported in Hg by done.
      injection Hg as <-. auto.
    + unfold declared_metadata in Hg.
      rewrite !get_insert_all_notin in Hg by done. discriminate.
Qed.

Lemma underlying_native_to_external metadata g :
  underlying (native_to_external metadata g) = g.
Proof.
  destruct g as [f|[fn ip ou]]; [done|].
  cbn. by destruct fn, ip, ou.
Qed.

(** ** Validation against the registry *)

(** C1. A declaration of the expected shape that names an operator the
    canonical registry does not have makes [parse_backend_yaml] raise
    the [AssertionError] of line 56, whose message names an operator of
    the declaration that the registry lacks; [main] stops there, and
    the output directory is as it was: none of the three files is
    written. *)
Theorem unknown_operator_is_rejected (C : Collaborators) (y : yaml)
    (d : BackendDeclaration) (reg : list grouped_native_function)
    (sup aut : list OperatorName.t) (fs : gmap string string) :
  declares y d ->
  parse_names (decl_supported d) = Some sup ->
  parse_names (decl_autograd d) = Some aut ->
  (exists op, In op (sup ++ aut) /\ ~ In op (registry_names reg)) ->
  exists op,
    In op (sup ++ aut) /\ ~ In op (registry_names reg) /\
    parse_backend_yaml y reg
    = Raise (AssertionError
               ("Found an invalid operator name: " +:+ OperatorName.format op)) /\
    main C y reg fs
    = (Raise (AssertionError
                ("Found an invalid operator name: " +:+ OperatorName.format op)),
       fs).
Proof.
  intros Hy Hsup Haut (op0 & Hin0 & Hreg0).
  pose proof (parse_backend_yaml_declared y d reg sup aut Hy Hsup Haut) as Hp.
  destruct (check_operator_names_raise
              (PyDict.keys (declared_metadata d sup aut))
              (native_functions_map_of reg)) as (op & Hin & Hmem & Hraise).
  { exists op0. split; [by apply keys_declared_metadata|].
    apply not_true_is_false. by rewrite mem_native_functions_map. }
  exists op. rewrite keys_declared_metadata in Hin.
  assert (~ In op (registry_names reg)) as Hreg.
  { rewrite <- mem_native_functions_map. congruence. }
  rewrite Hraise in Hp. cbn [bind] in Hp.
  repeat split; try done.
  unfold main. by rewrite Hp.
Qed.

(** C2. A declaration of the expected shape all of whose names are in
    the canonical registry is accepted: [parse_backend_yaml] returns
    the namespace and one resolved entry per registry entry, in the
    order of the registry. *)
Theorem known_operators_resolve (y : yaml) (d : BackendDeclaration)
    (reg : list grouped_native_function) (sup aut : list OperatorName.t) :
  declares y d ->
  parse_names (decl_supported d) = Some sup ->
  parse_names (decl_autograd d) = Some aut ->
  (forall op, In op (sup ++ aut) -> In op (registry_names reg)) ->
  exists es,
    parse_backend_yaml y reg = Ok (YStr (decl_cpp_namespace d), es) /\
    length es = length reg /\
    map underlying es = reg.
Proof.
  intros Hy Hsup Haut Hall.
  exists (map (native_to_external (declared_metadata d sup aut)) reg).
  rewrite (parse_backend_yaml_declared y d reg sup aut Hy Hsup Haut).
  rewrite check_operator_names_ok.
  - split; [done|]. split; [by rewrite length_map|].
    rewrite map_map. clear. induction reg as [|g reg IH]; [done|].
    cbn [map]. by rewrite underlying_native_to_external, IH.
  - intros k Hk. apply mem_native_functions_map, Hall.
    by apply (keys_declared_metadata d).
Qed.

Lemma unknown_operator_is_rejected_witness :
  exists op,
    In op ([Demo.op "aten::add.Tensor"; Demo.op "aten::nope"] ++ [Demo.op "aten::sub.Tensor"]) /\
    ~ In op (registry_names Demo.registry) /\
    parse_backend_yaml
      (Demo.document (Demo.declaration ["aten::add.Tensor"; "aten::nope"] ["aten::sub.Tensor"]))
      Demo.registry
    = Raise (AssertionError
               ("Found an invalid operator name: " +:+ OperatorName.format op)) /\
    main Demo.collaborators
      (Demo.document (Demo.declaration ["aten::add.Tensor"; "aten::nope"] ["aten::sub.Tensor"]))
      Demo.registry ∅
    = (Raise (AssertionError
                ("Found an invalid operator name: " +:+ OperatorName.format op)),
       ∅).
Proof.
  apply (unknown_operator_is_rejected Demo.collaborators
           (Demo.document (Demo.declaration ["aten::add.Tensor"; "aten::nope"] ["aten::sub.Tensor"]))
           (Demo.declaration ["aten::add.Tensor"; "aten::nope"] ["aten::sub.Tensor"])
           Demo.registry
           [Demo.op "aten::add.Tensor"; Demo.op "aten::nope"]
           [Demo.op "aten::sub.Tensor"] ∅).
  - eexists. repeat split; reflexivity.
  - reflexivity.
  - reflexivity.
  - exists (Demo.op "aten::nope"). split.
    + simpl. tauto.
    + vm_compute. intuition discriminate.
Defined.

Lemma known_operators_resolve_witness :
  exists es,
    parse_backend_yaml
      (Demo.document (Demo.declaration ["aten::add.Tensor"] ["aten::sub.Tensor"]))
      Demo.registry
    = Ok (YStr "torch_xla", es) /\
    length es = 3 /\
    map underlying es = Demo.registry.
Proof.
  apply (known_operators_resolve
           (Demo.document (Demo.declaration ["aten::add.Tensor"] ["aten::sub.Tensor"]))
           (Demo.declaration ["aten::add.Tensor"] ["aten::sub.Tensor"])
           Demo.registry
           [Demo.op "aten::add.Tensor"] [Demo.op "aten::sub.Tensor"]).
  - eexists. repeat split; reflexivity.
  - reflexivity.
  - reflexivity.
  - intros op Hin. vm_compute in Hin. vm_compute.
    destruct Hin as [<-|[<-|[]]]; tauto.
Defined.

(** ** Resolution of the registry entries *)

(** C4. In the list [parse_backend_yaml] returns for a declaration of
    the expected shape, the entry made from a standalone
    [NativeFunction] is an [ExternalBackendFunction] of that function,
    whose metadata is what the metadata mapping holds under the
    function's operator name, [None] exactly when the declaration does
    not list the name; the entry made from a [NativeFunctionsGroup] is
    an [ExternalBackendFunctionsGroup] with the same variant slots,
    each present variant resolved in that way on its own. *)
Theorem resolution_of_each_entry (y : yaml) (d : BackendDeclaration)
    (reg : list grouped_native_function) (sup aut : list OperatorName.t)
    (ns : yaml) (es : list external_backend_function) :
  declares y d ->
  parse_names (decl_supported d) = Some sup ->
  parse_names (decl_autograd d) = Some aut ->
  parse_backend_yaml y reg = Ok (ns, es) ->
  exists md,
    build_metadata (YStr (decl_backend d))
                   (YList (map YStr (decl_supported d)))
                   (YList (map YStr (decl_autograd d))) = Ok md /\
    (forall op, PyDict.get op md = None <-> ~ In op (sup ++ aut)) /\
    (forall op m, PyDict.get op md = Some m -> operator m = op) /\
    forall (i : nat) g, reg !! i = Some g ->
      es !! i
      = Some match g with
             | Function f =>
                 ExternalFunction
                   {| native_function := f;
                      metadata := PyDict.get (name (func f)) md |}
             | FunctionsGroup g =>
                 ExternalFunctionsGroup
                   {| ext_functional :=
                        (fun f => {| native_function := f;
                                     metadata := PyDict.get (name (func f)) md |})
                          <$> functional g;
                      ext_inplace :=
                        (fun f => {| native_function := f;
                                     metadata := PyDict.get (name (func f)) md |})
                          <$> inplace g;
                      ext_out :=
                        (fun f => {| native_function := f;
                                     metadata := PyDict.get (name (func f)) md |})
                          <$> out g |}
             end.
Proof.
  intros Hy Hsup Haut Hp. exists (declared_metadata d sup aut).
  rewrite (parse_backend_yaml_declared y d reg sup aut Hy Hsup Haut) in Hp.
  destruct (check_operator_names _ _); [|discriminate].
  cbn [bind] in Hp. injection Hp as _ <-.
  split; [by apply build_metadata_declared|].
  split; [|split].
  - intros op. rewrite dict_get_None.
    by rewrite (keys_declared_metadata d).
  - intros op m Hg. by apply get_declared_metadata_Some in Hg as (_ & ? & _).
  - intros i g Hi. rewrite list_lookup_fmap, Hi. by destruct g.
Qed.

Lemma resolution_of_each_entry_witness :
  exists md,
    build_metadata (YStr "XLA") (YList [YStr "aten::add.Tensor"])
                   (YList [YStr "aten::sub.Tensor"]) = Ok md /\
    map (native_to_external md) Demo.registry !! 1%nat
    = Some (ExternalFunction
              {| native_function := Demo.sub;
                 metadata := PyDict.get (name (func Demo.sub)) md |}).
Proof.
  destruct (resolution_of_each_entry
              (Demo.document (Demo.declaration ["aten::add.Tensor"] ["aten::sub.Tensor"]))
              (Demo.declaration ["aten::add.Tensor"] ["aten::sub.Tensor"])
              Demo.registry
              [Demo.op "aten::add.Tensor"] [Demo.op "aten::sub.Tensor"]
              (YStr "torch_xla")
              (map (native_to_external
                      (declared_metadata
                         (Demo.declaration ["aten::add.Tensor"] ["aten::sub.Tensor"])
                         [Demo.op "aten::add.Tensor"] [Demo.op "aten::sub.Tensor"]))
                   Demo.registry)
              ltac:(eexists; repeat split; reflexivity)
              eq_refl eq_refl eq_refl)
    as (md & Hb & _ & _ & Hres).
  exists md. split; [exact Hb|].
  change (Demo.declaration ["aten::add.Tensor"] ["aten::sub.Tensor"])
    with {| decl_cpp_namespace := "torch_xla"; decl_backend := "XLA";
            decl_supported := ["aten::add.Tensor"];
            decl_autograd := ["aten::sub.Tensor"] |} in Hb.
  cbn [decl_backend decl_supported decl_autograd map] in Hb.
  assert (md = declared_metadata
                 (Demo.declaration ["aten::add.Tensor"] ["aten::sub.Tensor"])
                 [Demo.op "aten::add.Tensor"] [Demo.op "aten::sub.Tensor"]) as ->.
  { assert (Ok md = Ok (declared_metadata
                 (Demo.declaration ["aten::add.Tensor"] ["aten::sub.Tensor"])
                 [Demo.op "aten::add.Tensor"] [Demo.op "aten::sub.Tensor"])) as Heq
      by (rewrite <- Hb; reflexivity).
    by injection Heq. }
  apply (Hres 1%nat (Function Demo.sub) eq_refl).
Defined.

(** ** The contents of the metadata mapping *)

(** C5, as the code has it. For a declaration of the expected shape
    whose names all parse, lines 28-36 build one mapping keyed by the
    parsed names, and it is the mapping the rest of
    [parse_backend_yaml] works with.  Every name of the autograd list
    has an entry with [is_autograd = True]; every name of the supported
    list that is not also in the autograd list has an entry with
    [is_autograd = False]; every entry is stored under the operator it
    is about, for a name of one of the two lists, and carries the
    backend identifier of the declaration; no key occurs twice. *)
Theorem metadata_of_declaration (y : yaml) (d : BackendDeclaration)
    (reg : list grouped_native_function) (sup aut : list OperatorName.t) :
  declares y d ->
  parse_names (decl_supported d) = Some sup ->
  parse_names (decl_autograd d) = Some aut ->
  exists md,
    build_metadata (YStr (decl_backend d))
                   (YList (map YStr (decl_supported d)))
                   (YList (map YStr (decl_autograd d))) = Ok md /\
    parse_backend_yaml y reg
    = (_ <- check_operator_names (PyDict.keys md) (native_functions_map_of reg) ;;
       Ok (YStr (decl_cpp_namespace d), map (native_to_external md) reg)) /\
    (forall op, In op aut ->
       PyDict.get op md
       = Some {| operator := op; backend := YStr (decl_backend d);
                 is_autograd := true |}) /\
    (forall op, In op sup -> ~ In op aut ->
       PyDict.get op md
       = Some {| operator := op; backend := YStr (decl_backend d);
                 is_autograd := false |}) /\
    (forall op m, PyDict.get op md = Some m ->
       In op (sup ++ aut) /\ operator m = op /\
       backend m = YStr (decl_backend d)) /\
    NoDup (PyDict.keys md).
Proof.
  intros Hy Hsup Haut. exists (declared_metadata d sup aut).
  split; [by apply build_metadata_declared|].
  split; [by apply parse_backend_yaml_declared|].
  split; [intros op; apply get_declared_metadata_autograd|].
  split; [intros op; apply get_declared_metadata_supported|].
  split; [intros op m; apply get_declared_metadata_Some|].
  unfold declared_metadata. do 2 apply keys_insert_all_NoDup. constructor.
Qed.

Lemma metadata_of_declaration_witness :
  exists md,
    build_metadata (YStr "XLA") (YList [YStr "aten::add.Tensor"])
                   (YList [YStr "aten::sub.Tensor"]) = Ok md /\
    PyDict.get (Demo.op "aten::add.Tensor") md
    = Some {| operator := Demo.op "aten::add.Tensor"; backend := YStr "XLA";
              is_autograd := false |} /\
    PyDict.get (Demo.op "aten::sub.Tensor") md
    = Some {| operator := Demo.op "aten::sub.Tensor"; backend := YStr "XLA";
              is_autograd := true |}.
Proof.
  destruct (metadata_of_declaration
              (Demo.document (Demo.declaration ["aten::add.Tensor"] ["aten::sub.Tensor"]))
              (Demo.declaration ["aten::add.Tensor"] ["aten::sub.Tensor"])
              Demo.registry
              [Demo.op "aten::add.Tensor"] [Demo.op "aten::sub.Tensor"]
              ltac:(eexists; repeat split; reflexivity) eq_refl eq_refl)
    as (md & Hb & _ & Haut & Hsup & _).
  exists md. split; [exact Hb|]. split.
  - apply Hsup; [simpl; tauto|]. vm_compute. intuition discriminate.
  - apply Haut. simpl. tauto.
Defined.

(** C5 as it is worded fails: with the same name in both lists, a name
    of the supported list ends up with [is_autograd = True]. *)
Lemma supported_name_flag_counterexample :
  OperatorName.parse "aten::add.Tensor" = Some (Demo.op "aten::add.Tensor") /\
  exists md,
    build_metadata (YStr "XLA") (YList [YStr "aten::add.Tensor"])
                   (YList [YStr "aten::add.Tensor"]) = Ok md /\
    is_autograd <$> PyDict.get (Demo.op "aten::add.Tensor") md = Some true /\
    is_autograd <$> PyDict.get (Demo.op "aten::add.Tensor") md <> Some false.
Proof.
  split; [reflexivity|]. eexists. split; [reflexivity|].
  split; [reflexivity|]. vm_compute. discriminate.
Qed.

(** C6. When an operator name is in both lists of a declaration of the
    expected shape, no exception comes of it: the mapping is built, the
    autograd assignment, made second, has replaced the plain one, so
    that the one entry of the name has [is_autograd = True]; and when
    all names are in the registry, [parse_backend_yaml] returns. *)
Theorem duplicate_name_is_autograd (y : yaml) (d : BackendDeclaration)
    (reg : list grouped_native_function) (sup aut : list OperatorName.t)
    (op : OperatorName.t) :
  declares y d ->
  parse_names (decl_supported d) = Some sup ->
  parse_names (decl_autograd d) = Some aut ->
  In op sup -> In op aut ->
  exists md,
    build_metadata (YStr (decl_backend d))
                   (YList (map YStr (decl_supported d)))
                   (YList (map YStr (decl_autograd d))) = Ok md /\
    PyDict.get op md
    = Some {| operator := op; backend := YStr (decl_backend d);
              is_autograd := true |} /\
    NoDup (PyDict.keys md) /\
    ((forall o, In o (sup ++ aut) -> In o (registry_names reg)) ->
     parse_backend_yaml y reg
     = Ok (YStr (decl_cpp_namespace d), map (native_to_external md) reg)).
Proof.
  intros Hy Hsup Haut Hs Ha. exists (declared_metadata d sup aut).
  split; [by apply build_metadata_declared|].
  split; [by apply get_declared_metadata_autograd|].
  split.
  { unfold declared_metadata. do 2 apply keys_insert_all_NoDup. constructor. }
  intros Hall.
  rewrite (parse_backend_yaml_declared y d reg sup aut Hy Hsup Haut).
  rewrite check_operator_names_ok; [done|].
  intros k Hk. apply mem_native_functions_map, Hall.
  by apply (keys_declared_metadata d).
Qed.

Lemma duplicate_name_is_autograd_witness :
  exists md,
    build_metadata (YStr "XLA")
                   (YList [YStr "aten::add.Tensor"; YStr "aten::sub.Tensor"])
                   (YList [YStr "aten::sub.Tensor"]) = Ok md /\
    PyDict.get (Demo.op "aten::sub.Tensor") md
    = Some {| operator := Demo.op "aten::sub.Tensor"; backend := YStr "XLA";
              is_autograd := true |}.
Proof.
  destruct (duplicate_name_is_autograd
              (Demo.document
                 (Demo.declaration ["aten::add.Tensor"; "aten::sub.Tensor"]
                                   ["aten::sub.Tensor"]))
              (Demo.declaration ["aten::add.Tensor"; "aten::sub.Tensor"]
                                ["aten::sub.Tensor"])
              Demo.registry
              [Demo.op "aten::add.Tensor"; Demo.op "aten::sub.Tensor"]
              [Demo.op "aten::sub.Tensor"]
              (Demo.op "aten::sub.Tensor")
              ltac:(eexists; repeat split; reflexivity) eq_refl eq_refl
              ltac:(simpl; tauto) ltac:(simpl; tauto))
    as (md & Hb & Hg & _).
  exists md. split; [exact Hb|exact Hg].
Defined.

(** ** Declarations that are not of the expected shape *)

(** C10. A loaded document that is not a mapping (a list, a scalar, the
    [None] of an empty document) fails the [assert] of line 20: the
    outcome is that [AssertionError], whatever the registry, and not
    an error of the reads of lines 22-26; [main] writes nothing. *)
Theorem non_mapping_document_is_rejected (y : yaml)
    (reg : list grouped_native_function) :
  is_dict y = false ->
  parse_backend_yaml y reg = Raise (AssertionError "") /\
  forall (C : Collaborators) (fs : gmap string string),
    main C y reg fs = (Raise (AssertionError ""), fs).
Proof.
  intros Hy.
  assert (parse_backend_yaml y reg = Raise (AssertionError "")) as Hp.
  { unfold parse_backend_yaml. by rewrite Hy. }
  split; [done|]. intros C fs. unfold main. by rewrite Hp.
Qed.

Lemma non_mapping_document_is_rejected_witness :
  parse_backend_yaml (YList [YStr "aten::add.Tensor"]) Demo.registry
  = Raise (AssertionError "") /\
  parse_backend_yaml YNull Demo.registry = Raise (AssertionError "").
Proof.
  split.
  - apply (non_mapping_document_is_rejected (YList [YStr "aten::add.Tensor"])
             Demo.registry). reflexivity.
  - apply (non_mapping_document_is_rejected YNull Demo.registry). reflexivity.
Defined.

(** C7 as it is worded fails: the code reads the four fields and does
    not look at their shape.  A mapping whose [cpp_namespace] is a list
    and whose [backend] is a number, with two empty lists of names, is
    accepted, the namespace returned as it was read, and the three
    files are written. *)
Lemma unchecked_shape_counterexample :
  expected_shape
    (YDict [("cpp_namespace", YList []); ("backend", YInt 5);
            ("supported", YList []); ("autograd", YList [])]) = false /\
  parse_backend_yaml
    (YDict [("cpp_namespace", YList []); ("backend", YInt 5);
            ("supported", YList []); ("autograd", YList [])]) []
  = Ok (YList [], []) /\
  is_ok (fst (main Demo.collaborators
                (YDict [("cpp_namespace", YList []); ("backend", YInt 5);
                        ("supported", YList []); ("autograd", YList [])])
                Demo.registry ∅)) = true.
Proof. repeat split; reflexivity. Qed.

(** C7, as the code has it. A mapping that lacks one of the four
    required keys makes [parse_backend_yaml] raise the [KeyError] of a
    required key that is missing, whatever the registry and whatever
    the other fields hold: the reads of lines 22-26 come before the
    metadata is built and before anything is resolved; [main] writes
    nothing. *)
Theorem missing_field_is_rejected (l : list (string * yaml))
    (reg : list grouped_native_function) :
  (exists key, In key required_fields /\ PyDict.get key l = None) ->
  exists key,
    In key required_fields /\ PyDict.get key l = None /\
    parse_backend_yaml (YDict l) reg = Raise (KeyError key) /\
    forall (C : Collaborators) (fs : gmap string string),
      main C (YDict l) reg fs = (Raise (KeyError key), fs).
Proof.
  intros (key0 & Hin0 & Hget0).
  assert (exists key, In key required_fields /\ PyDict.get key l = None /\
                      parse_backend_yaml (YDict l) reg = Raise (KeyError key))
    as (key & Hin & Hget & Hp).
  { unfold parse_backend_yaml, getitem, required_fields. cbn [is_dict negb].
    destruct (PyDict.get "cpp_namespace" l) as [ns|] eqn:Hns;
      [|exists "cpp_namespace"; simpl; tauto].
    destruct (PyDict.get "backend" l) as [b|] eqn:Hb;
      [|exists "backend"; simpl; tauto].
    destruct (PyDict.get "supported" l) as [s|] eqn:Hs;
      [|exists "supported"; simpl; tauto].
    destruct (PyDict.get "autograd" l) as [a|] eqn:Ha;
      [|exists "autograd"; simpl; tauto].
    exfalso. unfold required_fields in Hin0. simpl in Hin0.
    destruct Hin0 as [<-|[<-|[<-|[<-|[]]]]]; congruence. }
  exists key. repeat split; try done.
  intros C fs. unfold main. by rewrite Hp.
Qed.

Lemma missing_field_is_rejected_witness :
  exists key,
    In key required_fields /\
    PyDict.get key [("cpp_namespace", YStr "torch_xla"); ("backend", YStr "XLA");
                    ("supported", YList [YStr "aten::nope"])] = None /\
    parse_backend_yaml
      (YDict [("cpp_namespace", YStr "torch_xla"); ("backend", YStr "XLA");
              ("supported", YList [YStr "aten::nope"])]) Demo.registry
    = Raise (KeyError key) /\
    forall (C : Collaborators) (fs : gmap string string),
      main C (YDict [("cpp_namespace", YStr "torch_xla"); ("backend", YStr "XLA");
                     ("supported", YList [YStr "aten::nope"])]) Demo.registry fs
      = (Raise (KeyError key), fs).
Proof.
  apply (missing_field_is_rejected
           [("cpp_namespace", YStr "torch_xla"); ("backend", YStr "XLA");
            ("supported", YList [YStr "aten::nope"])] Demo.registry).
  exists "autograd". split; [simpl; tauto|reflexivity].
Defined.

(** ** The registrations of [aten_xla_type_default.cpp] *)

Lemma filter_partition {A} (p : A -> bool) (l : list A) :
  Permutation (List.filter (fun x => negb (p x)) l ++ List.filter p l) l.
Proof.
  induction l as [|x l IH]; [constructor|].
  cbn [List.filter]. destruct (p x); cbn [negb].
  - symmetry. apply Permutation_cons_app. by symmetry.
  - cbn. by constructor.
Qed.








(** The scenario of the spec: [add] declared plain, [sub] declared for
    autograd, [mul] not declared. *)
Example registration_scenario :
  forall es,
    parse_backend_yaml
      (Demo.document (Demo.declaration ["aten::add.Tensor"] ["aten::sub.Tensor"]))
      Demo.registry = Ok (YStr "torch_xla", es) ->
    dispatch_registrations Demo.collaborators es = ["m.impl aten::add.Tensor"] /\
    dispatch_autograd_registrations Demo.collaborators es
    = ["m.impl aten::sub.Tensor"].
Proof. intros es [= <-]. split; reflexivity. Qed.

(** ** The three output files *)

Lemma write_artifacts_lookup C ns es (fs : gmap string string) :
  write_artifacts C ns es fs !! "aten_xla_type.h"
  = Some (substitute_with_template C "aten_xla_type.h"
            (env_aten_xla_type_h C ns es)) /\
  write_artifacts C ns es fs !! "aten_xla_type_default.h"
  = Some (substitute_with_template C "aten_xla_type_default.h"
            (env_aten_xla_type_default_h C ns es)) /\
  write_artifacts C ns es fs !! "aten_xla_type_default.cpp"
  = Some (substitute_with_template C "aten_xla_type_default.cpp"
            (env_aten_xla_type_default_cpp C ns es)).
Proof.
  unfold write_artifacts, fm_write. repeat split.
  - rewrite !lookup_insert_ne by done. apply lookup_insert_eq.
  - rewrite lookup_insert_ne by done. apply lookup_insert_eq.
  - apply lookup_insert_eq.
Qed.

Lemma parse_backend_yaml_load y reg :
  parse_backend_yaml y reg
  = match load_declaration y with
    | Raise e => Raise e
    | Ok (cpp_namespace, metadata) =>
        validate_and_resolve (PyDict.keys metadata) cpp_namespace metadata reg
    end.
Proof.
  unfold parse_backend_yaml, load_declaration, validate_and_resolve.
  destruct (negb (is_dict y)); [done|].
  destruct (getitem y "cpp_namespace") as [ns|]; [|done].
  destruct (getitem y "backend") as [b|]; [|done].
  destruct (getitem y "supported") as [s|]; [|done].
  destruct (getitem y "autograd") as [a|]; [|done].
  cbn [bind]. by destruct (build_metadata b s a).
Qed.

(** The code is one of the runs: that of the walk in insertion order. *)
Lemma parse_backend_yaml_is_a_run y reg :
  parse_backend_yaml_run y reg (parse_backend_yaml y reg).
Proof.
  unfold parse_backend_yaml_run. rewrite parse_backend_yaml_load.
  destruct (load_declaration y) as [[ns md]|e]; [|done].
  by exists (PyDict.keys md).
Qed.

Lemma main_is_a_run C y reg fs : main_run C y reg fs (main C y reg fs).
Proof.
  exists (parse_backend_yaml y reg). split; [apply parse_backend_yaml_is_a_run|].
  unfold main. by destruct (parse_backend_yaml y reg) as [[ns es]|e].
Qed.

(** The runs of one call do differ: with two unknown operators, the
    exception names the one the walk meets first. *)
Example run_exception_follows_the_walk :
  parse_backend_yaml_run
    (Demo.document (Demo.declaration ["aten::nope"; "aten::zeta"] []))
    Demo.registry
    (Raise (AssertionError "Found an invalid operator name: aten::nope")) /\
  parse_backend_yaml_run
    (Demo.document (Demo.declaration ["aten::nope"; "aten::zeta"] []))
    Demo.registry
    (Raise (AssertionError "Found an invalid operator name: aten::zeta")).
Proof.
  split.
  - exists [Demo.op "aten::nope"; Demo.op "aten::zeta"].
    split; [apply Permutation_refl|reflexivity].
  - exists [Demo.op "aten::zeta"; Demo.op "aten::nope"].
    split; [apply perm_swap|reflexivity].
Qed.

Lemma validate_and_resolve_walks walk walk' ns md reg :
  Permutation walk walk' ->
  match validate_and_resolve walk ns md reg with
  | Ok r => validate_and_resolve walk' ns md reg = Ok r
  | Raise _ => is_ok (validate_and_resolve walk' ns md reg) = false
  end.
Proof.
  intros Hperm. unfold validate_and_resolve.
  destruct (check_operator_names walk _) as [[]|e] eqn:Hc; cbn [bind].
  - rewrite check_operator_names_ok; [done|].
    intros k Hk. apply (check_operator_names_Ok_inv _ _ Hc).
    apply list_elem_of_In. rewrite Hperm. by apply list_elem_of_In.
  - destruct (check_operator_names walk' _) as [[]|e'] eqn:Hc'; [|done].
    exfalso. rewrite check_operator_names_ok in Hc; [done|].
    intros k Hk. apply (check_operator_names_Ok_inv _ _ Hc').
    apply list_elem_of_In. rewrite <- Hperm. by apply list_elem_of_In.
Qed.

(** C9. Two runs of [main] over the same registry and the same
    declaration, whatever the order in which each of them walks the
    keys of the metadata mapping and whatever each of them found in
    the output directory, end alike: both return or both raise; when
    they return, each of the three files is there with the same
    content in both; when they raise, neither has written anything
    (the exception itself may name another operator, see
    [run_exception_follows_the_walk]). *)
Theorem generation_is_deterministic (C : Collaborators) (y : yaml)
    (reg : list grouped_native_function) (fs1 fs2 : gmap string string)
    (out1 out2 : result unit * gmap string string) :
  main_run C y reg fs1 out1 ->
  main_run C y reg fs2 out2 ->
  is_ok (fst out1) = is_ok (fst out2) /\
  (is_ok (fst out1) = true ->
   forall filename, In filename artifact_names ->
     is_Some (snd out1 !! filename) /\
     snd out1 !! filename = snd out2 !! filename) /\
  (is_ok (fst out1) = false -> snd out1 = fs1 /\ snd out2 = fs2).
Proof.
  intros (r1 & Hr1 & ->) (r2 & Hr2 & ->).
  unfold parse_backend_yaml_run in Hr1, Hr2.
  destruct (load_declaration y) as [[ns md]|e].
  - destruct Hr1 as (walk1 & Hw1 & ->). destruct Hr2 as (walk2 & Hw2 & ->).
    pose proof (validate_and_resolve_walks walk1 walk2 ns md reg) as Hsame.
    destruct (validate_and_resolve walk1 ns md reg) as [[ns1 es1]|e1].
    + rewrite Hsame by (by rewrite Hw1, Hw2). cbn [fst snd is_ok].
      split; [done|]. split; [|discriminate].
      intros _ filename Hin.
      destruct (write_artifacts_lookup C ns1 es1 fs1) as (H1 & H2 & H3).
      destruct (write_artifacts_lookup C ns1 es1 fs2) as (K1 & K2 & K3).
      unfold artifact_names in Hin. simpl in Hin.
      destruct Hin as [<-|[<-|[<-|[]]]].
      * rewrite H1, K1. eauto.
      * rewrite H2, K2. eauto.
      * rewrite H3, K3. eauto.
    + destruct (validate_and_resolve walk2 ns md reg) as [[ns2 es2]|e2].
      * exfalso. by specialize (Hsame ltac:(by rewrite Hw1, Hw2)).
      * cbn [fst snd is_ok]. split; [done|]. split; [discriminate|done].
  - subst r1 r2. cbn [fst snd is_ok]. split; [done|]. split; [discriminate|done].
Qed.

Lemma generation_is_deterministic_witness :
  snd (main Demo.collaborators
         (Demo.document (Demo.declaration ["aten::add.Tensor"] ["aten::sub.Tensor"]))
         Demo.registry ∅) !! "aten_xla_type_default.cpp"
  = snd (main Demo.collaborators
           (Demo.document (Demo.declaration ["aten::add.Tensor"] ["aten::sub.Tensor"]))
           Demo.registry {["aten_xla_type_default.cpp" := "stale"]})
      !! "aten_xla_type_default.cpp".
Proof.
  destruct (generation_is_deterministic Demo.collaborators
              (Demo.document (Demo.declaration ["aten::add.Tensor"] ["aten::sub.Tensor"]))
              Demo.registry ∅ {["aten_xla_type_default.cpp" := "stale"]}
              (main Demo.collaborators
                 (Demo.document (Demo.declaration ["aten::add.Tensor"] ["aten::sub.Tensor"]))
                 Demo.registry ∅)
              (main Demo.collaborators
                 (Demo.document (Demo.declaration ["aten::add.Tensor"] ["aten::sub.Tensor"]))
                 Demo.registry {["aten_xla_type_default.cpp" := "stale"]}))
    as (_ & Hfiles & _).
  - eexists. split; [|reflexivity].
    exists [Demo.op "aten::add.Tensor"; Demo.op "aten::sub.Tensor"].
    split; [apply Permutation_refl|reflexivity].
  - eexists. split; [|reflexivity].
    exists [Demo.op "aten::sub.Tensor"; Demo.op "aten::add.Tensor"].
    split; [apply perm_swap|reflexivity].
  - apply Hfiles; [reflexivity|]. unfold artifact_names. simpl. tauto.
Defined.

(** * Further properties of [parse_backend_yaml] and [main] *)

(** ** What a returning call has gone through *)

Lemma parse_backend_yaml_Ok_inv y reg ns es :
  parse_backend_yaml y reg = Ok (ns, es) ->
  exists l b s a md,
    y = YDict l /\
    PyDict.get "cpp_namespace" l = Some ns /\
    PyDict.get "backend" l = Some b /\
    PyDict.get "supported" l = Some s /\
    PyDict.get "autograd" l = Some a /\
    build_metadata b s a = Ok md /\
    check_operator_names (PyDict.keys md) (native_functions_map_of reg) = Ok tt /\
    es = map (native_to_external md) reg.
Proof.
  unfold parse_backend_yaml. destruct y as [| | | |?|l]; try discriminate.
  cbn [is_dict negb getitem].
  destruct (PyDict.get "cpp_namespace" l) as [ns'|] eqn:Hns; [|discriminate].
  destruct (PyDict.get "backend" l) as [b|] eqn:Hb; [|discriminate].
  destruct (PyDict.get "supported" l) as [s|] eqn:Hs; [|discriminate].
  destruct (PyDict.get "autograd" l) as [a|] eqn:Ha; [|discriminate].
  cbn [bind]. destruct (build_metadata b s a) as [md|] eqn:Hmd; [|discriminate].
  cbn [bind].
  destruct (check_operator_names _ _) as [[]|] eqn:Hc; [|discriminate].
  cbn [bind]. intros [= <- <-]. exists l, b, s, a, md. repeat split; done.
Qed.

Lemma parse_backend_yaml_Ok_intro l reg ns b s a md :
  PyDict.get "cpp_namespace" l = Some ns ->
  PyDict.get "backend" l = Some b ->
  PyDict.get "supported" l = Some s ->
  PyDict.get "autograd" l = Some a ->
  build_metadata b s a = Ok md ->
  check_operator_names (PyDict.keys md) (native_functions_map_of reg) = Ok tt ->
  parse_backend_yaml (YDict l) reg = Ok (ns, map (native_to_external md) reg).
Proof.
  intros Hns Hb Hs Ha Hmd Hc. unfold parse_backend_yaml, getitem.
  cbn [is_dict negb]. rewrite Hns, Hb, Hs, Ha. cbn [bind].
  rewrite Hmd. cbn [bind]. by rewrite Hc.
Qed.

Lemma map_underlying_native_to_external md reg :
  map underlying (map (native_to_external md) reg) = reg.
Proof.
  induction reg as [|g reg IH]; [done|].
  cbn [map]. by rewrite underlying_native_to_external, IH.
Qed.

(** X6. Whatever document it was given, a call of [parse_backend_yaml]
    that returns gives back the value stored under [cpp_namespace] and
    one entry for each registry entry, made from it, in the order of
    the registry. *)
Theorem returned_entries_follow_registry (y : yaml)
    (reg : list grouped_native_function) (ns : yaml)
    (es : list external_backend_function) :
  parse_backend_yaml y reg = Ok (ns, es) ->
  getitem y "cpp_namespace" = Ok ns /\
  length es = length reg /\
  map underlying es = reg.
Proof.
  intros (l & b & s & a & md & -> & Hns & _ & _ & _ & _ & _ & ->)%parse_backend_yaml_Ok_inv.
  split; [by cbn; rewrite Hns|].
  split; [by rewrite length_map|apply map_underlying_native_to_external].
Qed.

Lemma returned_entries_follow_registry_witness :
  getitem (YDict [("cpp_namespace", YList []); ("backend", YInt 5);
                  ("supported", YStr ""); ("autograd", YDict [])])
          "cpp_namespace" = Ok (YList []) /\
  length (map (native_to_external []) Demo.registry) = length Demo.registry /\
  map underlying (map (native_to_external []) Demo.registry) = Demo.registry.
Proof.
  apply (returned_entries_follow_registry
           (YDict [("cpp_namespace", YList []); ("backend", YInt 5);
                   ("supported", YStr ""); ("autograd", YDict [])])
           Demo.registry). reflexivity.
Defined.

(** ** The order of the failures *)

(** X1. When the document is a mapping that lacks required keys, the
    [KeyError] is that of the first missing key in the order
    [cpp_namespace], [backend], [supported], [autograd], whatever the
    other fields hold. *)
Theorem first_missing_field_is_named (l : list (string * yaml))
    (reg : list grouped_native_function) (key : string) :
  List.find (fun k => negb (PyDict.mem k l)) required_fields = Some key ->
  parse_backend_yaml (YDict l) reg = Raise (KeyError key).
Proof.
  unfold required_fields, parse_backend_yaml, getitem, PyDict.mem.
  cbn [List.find is_dict negb].
  destruct (PyDict.get "cpp_namespace" l); cbn [negb bind]; [|by intros [= <-]].
  destruct (PyDict.get "backend" l); cbn [negb bind]; [|by intros [= <-]].
  destruct (PyDict.get "supported" l); cbn [negb bind]; [|by intros [= <-]].
  destruct (PyDict.get "autograd" l); cbn [negb bind]; [|by intros [= <-]].
  discriminate.
Qed.

Lemma first_missing_field_is_named_witness :
  parse_backend_yaml (YDict [("cpp_namespace", YStr "torch_xla");
                             ("supported", YInt 3)]) Demo.registry
  = Raise (KeyError "backend").
Proof.
  apply (first_missing_field_is_named
           [("cpp_namespace", YStr "torch_xla"); ("supported", YInt 3)]
           Demo.registry "backend").
  reflexivity.
Defined.

(** X2. When the four keys are there and the value of [supported] is
    not iterable (the [None] of a key left empty, a boolean, a number),
    the first loop raises [TypeError], whatever [autograd] holds and
    whatever the registry is. *)
Theorem non_iterable_supported_is_rejected (l : list (string * yaml))
    (reg : list grouped_native_function) (ns b s a : yaml) :
  PyDict.get "cpp_namespace" l = Some ns ->
  PyDict.get "backend" l = Some b ->
  PyDict.get "supported" l = Some s ->
  PyDict.get "autograd" l = Some a ->
  s = YNull \/ (exists x, s = YBool x) \/ (exists z, s = YInt z) ->
  parse_backend_yaml (YDict l) reg = Raise TypeError.
Proof.
  intros Hns Hb Hs Ha Hshape. unfold parse_backend_yaml, getitem.
  cbn [is_dict negb]. rewrite Hns, Hb, Hs, Ha. cbn [bind].
  by destruct Hshape as [->|[[x ->]|[z ->]]].
Qed.

Lemma non_iterable_supported_is_rejected_witness :
  parse_backend_yaml
    (YDict [("cpp_namespace", YStr "torch_xla"); ("backend", YStr "XLA");
            ("supported", YNull); ("autograd", YList [YStr "aten::nope"])])
    Demo.registry
  = Raise TypeError.
Proof.
  apply (non_iterable_supported_is_rejected
           [("cpp_namespace", YStr "torch_xla"); ("backend", YStr "XLA");
            ("supported", YNull); ("autograd", YList [YStr "aten::nope"])]
           Demo.registry (YStr "torch_xla") (YStr "XLA") YNull
           (YList [YStr "aten::nope"]) eq_refl eq_refl eq_refl eq_refl).
  by left.
Defined.

Lemma add_metadata_raise backend flag pre bad post metadata e :
  Forall (fun op => is_ok (OperatorName_parse op) = true) pre ->
  OperatorName_parse bad = Raise e ->
  add_metadata backend flag (pre ++ bad :: post) metadata = Raise e.
Proof.
  intros Hpre Hbad. revert metadata.
  induction Hpre as [|op pre Hop _ IH]; intros metadata.
  - cbn [app add_metadata]. by rewrite Hbad.
  - cbn [app add_metadata].
    destruct (OperatorName_parse op); [|discriminate]. cbn [bind]. apply IH.
Qed.

Lemma add_metadata_returns backend flag ops metadata :
  Forall (fun op => is_ok (OperatorName_parse op) = true) ops ->
  exists metadata', add_metadata backend flag ops metadata = Ok metadata'.
Proof.
  intros Hops. revert metadata.
  induction Hops as [|op ops Hop _ IH]; intros metadata.
  - by exists metadata.
  - cbn [add_metadata].
    destruct (OperatorName_parse op); [|discriminate]. cbn [bind]. apply IH.
Qed.

(** X3. A name of the [supported] list that [OperatorName.parse]
    refuses ends the call with the exception of the first such name:
    the names before it have been taken in, the names after it, the
    [autograd] field and the registry are never looked at. *)
Theorem supported_parse_error_comes_first (l : list (string * yaml))
    (reg : list grouped_native_function) (ns b a : yaml)
    (pre : list yaml) (bad : yaml) (post : list yaml) (e : exn) :
  PyDict.get "cpp_namespace" l = Some ns ->
  PyDict.get "backend" l = Some b ->
  PyDict.get "supported" l = Some (YList (pre ++ bad :: post)) ->
  PyDict.get "autograd" l = Some a ->
  Forall (fun op => is_ok (OperatorName_parse op) = true) pre ->
  OperatorName_parse bad = Raise e ->
  parse_backend_yaml (YDict l) reg = Raise e.
Proof.
  intros Hns Hb Hs Ha Hpre Hbad. unfold parse_backend_yaml, getitem.
  cbn [is_dict negb]. rewrite Hns, Hb, Hs, Ha. cbn [bind].
  unfold build_metadata. cbn [py_iter bind].
  by rewrite (add_metadata_raise _ _ _ _ _ _ _ Hpre Hbad).
Qed.

Lemma supported_parse_error_comes_first_witness :
  parse_backend_yaml
    (YDict [("cpp_namespace", YStr "torch_xla"); ("backend", YStr "XLA");
            ("supported", YList [YStr "aten::add.Tensor"; YStr "aten::";
                                 YStr "aten::nope"]);
            ("autograd", YNull)])
    Demo.registry
  = Raise (ParseError (YStr "aten::")).
Proof.
  apply (supported_parse_error_comes_first
           [("cpp_namespace", YStr "torch_xla"); ("backend", YStr "XLA");
            ("supported", YList [YStr "aten::add.Tensor"; YStr "aten::";
                                 YStr "aten::nope"]);
            ("autograd", YNull)]
           Demo.registry (YStr "torch_xla") (YStr "XLA") YNull
           [YStr "aten::add.Tensor"] (YStr "aten::") [YStr "aten::nope"]
           (ParseError (YStr "aten::")) eq_refl eq_refl eq_refl eq_refl).
  - repeat constructor.
  - reflexivity.
Defined.

(** X4. The [autograd] list is gone through only once the [supported]
    list has been taken in whole: when all the names of [supported]
    parse, a name of [autograd] that [OperatorName.parse] refuses ends
    the call with the exception of the first such name, before any
    name is checked against the registry. *)
Theorem autograd_parse_error_comes_second (l : list (string * yaml))
    (reg : list grouped_native_function) (ns b : yaml)
    (sup pre : list yaml) (bad : yaml) (post : list yaml) (e : exn) :
  PyDict.get "cpp_namespace" l = Some ns ->
  PyDict.get "backend" l = Some b ->
  PyDict.get "supported" l = Some (YList sup) ->
  PyDict.get "autograd" l = Some (YList (pre ++ bad :: post)) ->
  Forall (fun op => is_ok (OperatorName_parse op) = true) sup ->
  Forall (fun op => is_ok (OperatorName_parse op) = true) pre ->
  OperatorName_parse bad = Raise e ->
  parse_backend_yaml (YDict l) reg = Raise e.
Proof.
  intros Hns Hb Hs Ha Hsup Hpre Hbad. unfold parse_backend_yaml, getitem.
  cbn [is_dict negb]. rewrite Hns, Hb, Hs, Ha. cbn [bind].
  unfold build_metadata. cbn [py_iter bind].
  destruct (add_metadata_returns b false sup PyDict.empty Hsup) as [md ->].
  cbn [bind]. by rewrite (add_metadata_raise _ _ _ _ _ _ _ Hpre Hbad).
Qed.

Lemma autograd_parse_error_comes_second_witness :
  parse_backend_yaml
    (YDict [("cpp_namespace", YStr "torch_xla"); ("backend", YStr "XLA");
            ("supported", YList [YStr "aten::nope"]);
            ("autograd", YList [YStr "aten::sub.Tensor"; YInt 7])])
    Demo.registry
  = Raise (ParseError (YInt 7)).
Proof.
  apply (autograd_parse_error_comes_second
           [("cpp_namespace", YStr "torch_xla"); ("backend", YStr "XLA");
            ("supported", YList [YStr "aten::nope"]);
            ("autograd", YList [YStr "aten::sub.Tensor"; YInt 7])]
           Demo.registry (YStr "torch_xla") (YStr "XLA")
           [YStr "aten::nope"] [YStr "aten::sub.Tensor"] (YInt 7) []
           (ParseError (YInt 7)) eq_refl eq_refl eq_refl eq_refl).
  - repeat constructor.
  - repeat constructor.
  - reflexivity.
Defined.

(** ** Which operator the validation names *)

Lemma find_keys_set {V} (p : OperatorName.t -> bool) n (v : V) d :
  List.find p (PyDict.keys (PyDict.set n v d))
  = match List.find p (PyDict.keys d) with
    | Some k => Some k
    | None => if p n then Some n else None
    end.
Proof.
  unfold PyDict.keys. induction d as [|[k0 v0] d IH]; cbn [PyDict.set map List.find].
  - done.
  - destruct (decide (k0 = n)) as [->|Hne]; cbn [map List.find fst].
    + destruct (p n) eqn:Hn; [done|].
      destruct (List.find p (map fst d)); [done|]. done.
    + destruct (p k0); [done|]. apply IH.
Qed.

Lemma find_keys_insert_all (p : OperatorName.t -> bool) backend flag ns metadata :
  List.find p (PyDict.keys (insert_all backend flag ns metadata))
  = match List.find p (PyDict.keys metadata) with
    | Some k => Some k
    | None => List.find p ns
    end.
Proof.
  unfold insert_all. revert metadata.
  induction ns as [|n ns IH]; intros metadata; cbn [fold_left List.find].
  - by destruct (List.find p (PyDict.keys metadata)).
  - rewrite IH, find_keys_set.
    destruct (List.find p (PyDict.keys metadata)); [done|].
    by destruct (p n).
Qed.

Lemma find_app {A} (p : A -> bool) (l1 l2 : list A) :
  List.find p (l1 ++ l2)
  = match List.find p l1 with Some x => Some x | None => List.find p l2 end.
Proof.
  induction l1 as [|x l1 IH]; [done|].
  cbn [app List.find]. by destruct (p x).
Qed.

Lemma check_operator_names_find ks (m : list (OperatorName.t * NativeFunction)) :
  check_operator_names ks m
  = match List.find (fun k => negb (PyDict.mem k m)) ks with
    | Some k => Raise (invalid_operator_name k)
    | None => Ok tt
    end.
Proof.
  induction ks as [|k ks IH]; [done|].
  cbn [check_operator_names List.find]. by destruct (PyDict.mem k m).
Qed.

(** X5. When several names of a declaration of the expected shape are
    not in the registry, the exception of line 56 names the first of
    them in the order of the declaration, the [supported] list before
    the [autograd] list. *)
Theorem first_unknown_operator_is_named (y : yaml) (d : BackendDeclaration)
    (reg : list grouped_native_function) (sup aut : list OperatorName.t)
    (op : OperatorName.t) :
  declares y d ->
  parse_names (decl_supported d) = Some sup ->
  parse_names (decl_autograd d) = Some aut ->
  List.find (fun k => negb (PyDict.mem k (native_functions_map_of reg))) (sup ++ aut)
  = Some op ->
  parse_backend_yaml y reg
  = Raise (AssertionError
             ("Found an invalid operator name: " +:+ OperatorName.format op)).
Proof.
  intros Hy Hsup Haut Hfind.
  rewrite (parse_backend_yaml_declared y d reg sup aut Hy Hsup Haut).
  rewrite check_operator_names_find. unfold declared_metadata.
  rewrite !find_keys_insert_all. unfold PyDict.empty. cbn [PyDict.keys map List.find].
  rewrite find_app in Hfind.
  destruct (List.find _ sup) as [k|].
  - by injection Hfind as ->.
  - by rewrite Hfind.
Qed.

Lemma first_unknown_operator_is_named_witness :
  parse_backend_yaml
    (Demo.document (Demo.declaration ["aten::sub.Tensor"; "aten::zeta"]
                                     ["aten::alpha"; "aten::zeta"]))
    Demo.registry
  = Raise (AssertionError "Found an invalid operator name: aten::zeta").
Proof.
  apply (first_unknown_operator_is_named
           (Demo.document (Demo.declaration ["aten::sub.Tensor"; "aten::zeta"]
                                            ["aten::alpha"; "aten::zeta"]))
           (Demo.declaration ["aten::sub.Tensor"; "aten::zeta"]
                             ["aten::alpha"; "aten::zeta"])
           Demo.registry
           [Demo.op "aten::sub.Tensor"; Demo.op "aten::zeta"]
           [Demo.op "aten::alpha"; Demo.op "aten::zeta"]
           (Demo.op "aten::zeta")
           ltac:(eexists; repeat split; reflexivity) eq_refl eq_refl eq_refl).
Defined.


(** ** What the resolved entries hold *)

Lemma add_metadata_keyed b flag ops metadata metadata' :
  add_metadata b flag ops metadata = Ok metadata' ->
  (forall k m, PyDict.get k metadata = Some m -> operator m = k /\ backend m = b) ->
  forall k m, PyDict.get k metadata' = Some m -> operator m = k /\ backend m = b.
Proof.
  revert metadata. induction ops as [|op ops IH]; intros metadata Hadd Hinv.
  - by injection Hadd as <-.
  - cbn [add_metadata] in Hadd.
    destruct (OperatorName_parse op) as [n|]; [|discriminate].
    cbn [bind operator] in Hadd. apply (IH _ Hadd).
    intros k m. destruct (decide (n = k)) as [->|Hne].
    + rewrite dict_get_set_eq. by intros [= <-].
    + rewrite dict_get_set_ne by done. apply Hinv.
Qed.

Lemma build_metadata_keyed b s a md :
  build_metadata b s a = Ok md ->
  forall k m, PyDict.get k md = Some m -> operator m = k /\ backend m = b.
Proof.
  unfold build_metadata. intros Hb.
  destruct (py_iter s) as [ops|]; [|discriminate]. cbn [bind] in Hb.
  destruct (add_metadata b false ops PyDict.empty) as [md0|] eqn:H0; [|discriminate].
  cbn [bind] in Hb.
  destruct (py_iter a) as [ops'|]; [|discriminate]. cbn [bind] in Hb.
  apply (add_metadata_keyed _ _ _ _ _ Hb).
  apply (add_metadata_keyed _ _ _ _ _ H0). discriminate.
Qed.

Lemma ext_functions_from_function_group g md :
  ext_functions (from_function_group g md) = map (resolve_function md) (functions g).
Proof. destruct g as [[f|] [i|] [o|]]; reflexivity. Qed.

Lemma flatten_external_resolved md reg :
  flatten_external (map (native_to_external md) reg)
  = map (resolve_function md) (flatten_native reg).
Proof.
  unfold flatten_external, concatMap, flatten_native.
  induction reg as [|g reg IH]; [done|].
  cbn [map concat]. rewrite IH, map_app. f_equal.
  destruct g as [f|g]; [done|]. apply ext_functions_from_function_group.
Qed.

(** X7. Whatever document it was given, in the entries a call of
    [parse_backend_yaml] returns, the metadata of a resolved function,
    when there is one, is about that very function (its [operator] is
    the function's name) and carries the value stored under
    [backend]. *)
Theorem returned_metadata_is_about_its_function (y : yaml)
    (reg : list grouped_native_function) (ns : yaml)
    (es : list external_backend_function) :
  parse_backend_yaml y reg = Ok (ns, es) ->
  exists b,
    getitem y "backend" = Ok b /\
    forall f m,
      In f (flatten_external es) -> metadata f = Some m ->
      operator m = name (func (native_function f)) /\ backend m = b.
Proof.
  intros (l & b & s & a & md & -> & _ & Hb & _ & _ & Hmd & _ & ->)%parse_backend_yaml_Ok_inv.
  exists b. split; [by cbn; rewrite Hb|].
  intros f m Hin Hm. rewrite flatten_external_resolved in Hin.
  apply in_map_iff in Hin as (nf & <- & _). cbn in Hm |- *.
  apply (build_metadata_keyed _ _ _ _ Hmd _ _ Hm).
Qed.

Lemma returned_metadata_is_about_its_function_witness :
  exists b,
    getitem (Demo.document (Demo.declaration ["aten::add.Tensor"] ["aten::sub.Tensor"]))
            "backend" = Ok b /\
    forall f m,
      In f (flatten_external
              (map (native_to_external
                      (declared_metadata
                         (Demo.declaration ["aten::add.Tensor"] ["aten::sub.Tensor"])
                         [Demo.op "aten::add.Tensor"] [Demo.op "aten::sub.Tensor"]))
                   Demo.registry)) ->
      metadata f = Some m ->
      operator m = name (func (native_function f)) /\ backend m = b.
Proof.
  apply (returned_metadata_is_about_its_function
           (Demo.document (Demo.declaration ["aten::add.Tensor"] ["aten::sub.Tensor"]))
           Demo.registry (YStr "torch_xla")).
  reflexivity.
Defined.

(** X8. When [parse_backend_yaml] returns for a declaration of the
    expected shape, no declared operator is lost: for every name of
    the two lists there is a resolved function of that name, in an
    entry or in a group, that carries metadata for it, with
    [is_autograd] true exactly when the name is in the [autograd]
    list. *)
Theorem declared_operator_is_resolved (y : yaml) (d : BackendDeclaration)
    (reg : list grouped_native_function) (sup aut : list OperatorName.t)
    (ns : yaml) (es : list external_backend_function) (op : OperatorName.t) :
  declares y d ->
  parse_names (decl_supported d) = Some sup ->
  parse_names (decl_autograd d) = Some aut ->
  parse_backend_yaml y reg = Ok (ns, es) ->
  In op (sup ++ aut) ->
  exists f m,
    In f (flatten_external es) /\
    name (func (native_function f)) = op /\
    metadata f = Some m /\
    operator m = op /\
    (is_autograd m = true <-> In op aut).
Proof.
  intros Hy Hsup Haut Hp Hop.
  rewrite (parse_backend_yaml_declared y d reg sup aut Hy Hsup Haut) in Hp.
  destruct (check_operator_names _ _) as [[]|] eqn:Hc; [|discriminate].
  cbn [bind] in Hp. injection Hp as _ <-.
  assert (In op (registry_names reg)) as Hreg.
  { apply mem_native_functions_map.
    apply (check_operator_names_Ok_inv _ _ Hc).
    by apply (keys_declared_metadata d). }
  unfold registry_names in Hreg. apply in_map_iff in Hreg as (nf & Hname & Hnf).
  rewrite flatten_external_resolved.
  destruct (in_dec (fun x y => decide (x = y)) op aut) as [Ha|Ha].
  - exists (resolve_function (declared_metadata d sup aut) nf),
           (metadata_entry (YStr (decl_backend d)) true op).
    split; [by apply in_map|]. split; [done|]. unfold resolve_function. cbn.
    rewrite Hname, get_declared_metadata_autograd by done. done.
  - exists (resolve_function (declared_metadata d sup aut) nf),
           (metadata_entry (YStr (decl_backend d)) false op).
    split; [by apply in_map|]. split; [done|]. unfold resolve_function. cbn.
    apply in_app_iff in Hop as [Hs|Hs]; [|done].
    rewrite Hname, get_declared_metadata_supported by done.
    split; [done|]. split; [done|]. split; [discriminate|done].
Qed.

Lemma declared_operator_is_resolved_witness :
  exists f m,
    In f (flatten_external
            (map (native_to_external
                    (declared_metadata
                       (Demo.declaration ["aten::add.out"] ["aten::sub.Tensor"])
                       [Demo.op "aten::add.out"] [Demo.op "aten::sub.Tensor"]))
                 Demo.registry)) /\
    name (func (native_function f)) = Demo.op "aten::add.out" /\
    metadata f = Some m /\
    operator m = Demo.op "aten::add.out" /\
    (is_autograd m = true <-> In (Demo.op "aten::add.out") [Demo.op "aten::sub.Tensor"]).
Proof.
  apply (declared_operator_is_resolved
           (Demo.document (Demo.declaration ["aten::add.out"] ["aten::sub.Tensor"]))
           (Demo.declaration ["aten::add.out"] ["aten::sub.Tensor"])
           Demo.registry
           [Demo.op "aten::add.out"] [Demo.op "aten::sub.Tensor"]
           (YStr "torch_xla") _ (Demo.op "aten::add.out")
           ltac:(eexists; repeat split; reflexivity) eq_refl eq_refl eq_refl).
  simpl. tauto.
Defined.

(** ** Declarations that say the same *)

Lemma get_declared_metadata_ext d d' sup aut sup' aut' op :
  decl_backend d = decl_backend d' ->
  (forall o, In o sup <-> In o sup') ->
  (forall o, In o aut <-> In o aut') ->
  PyDict.get op (declared_metadata d sup aut)
  = PyDict.get op (declared_metadata d' sup' aut').
Proof.
  intros Hb Hs Ha.
  destruct (in_dec (fun x y => decide (x = y)) op aut) as [Hin|Hn].
  - rewrite !get_declared_metadata_autograd by (done || by apply Ha).
    by rewrite Hb.
  - assert (~ In op aut') as Hn' by (by rewrite <- Ha).
    destruct (in_dec (fun x y => decide (x = y)) op sup) as [Hsin|Hsn].
    + rewrite !get_declared_metadata_supported by (done || by apply Hs).
      by rewrite Hb.
    + assert (~ In op sup') as Hsn' by (by rewrite <- Hs).
      unfold declared_metadata. by rewrite !get_insert_all_notin.
Qed.

Lemma native_to_external_ext md md' g :
  (forall op, PyDict.get op md = PyDict.get op md') ->
  native_to_external md g = native_to_external md' g.
Proof.
  intros Hext.
  assert (forall f, resolve_function md f = resolve_function md' f) as Hres.
  { intros f. unfold resolve_function. by rewrite Hext. }
  destruct g as [f|[fn ip ou]]; cbn.
  - by rewrite Hres.
  - unfold from_function_group. cbn.
    by destruct fn, ip, ou; cbn; rewrite ?Hres.
Qed.

(** X9. What [parse_backend_yaml] returns depends on the two lists of
    a declaration only through the names they hold: two declarations
    of the expected shape with the same namespace and backend whose
    [supported] lists hold the same names, and whose [autograd] lists
    hold the same names, in any order and with any repetition, give
    the same result whenever one of them is accepted. *)
Theorem declaration_order_is_irrelevant (y y' : yaml) (d d' : BackendDeclaration)
    (reg : list grouped_native_function) (sup aut sup' aut' : list OperatorName.t)
    (r : yaml * list external_backend_function) :
  declares y d -> declares y' d' ->
  decl_cpp_namespace d = decl_cpp_namespace d' ->
  decl_backend d = decl_backend d' ->
  parse_names (decl_supported d) = Some sup ->
  parse_names (decl_autograd d) = Some aut ->
  parse_names (decl_supported d') = Some sup' ->
  parse_names (decl_autograd d') = Some aut' ->
  (forall op, In op sup <-> In op sup') ->
  (forall op, In op aut <-> In op aut') ->
  parse_backend_yaml y reg = Ok r ->
  parse_backend_yaml y' reg = Ok r.
Proof.
  intros Hy Hy' Hns Hb Hsup Haut Hsup' Haut' Hs Ha Hp.
  rewrite (parse_backend_yaml_declared y d reg sup aut Hy Hsup Haut) in Hp.
  rewrite (parse_backend_yaml_declared y' d' reg sup' aut' Hy' Hsup' Haut').
  destruct (check_operator_names (PyDict.keys (declared_metadata d sup aut)) _)
    as [[]|] eqn:Hc; [|discriminate].
  cbn [bind] in Hp. injection Hp as <-.
  rewrite check_operator_names_ok.
  - cbn [bind]. rewrite Hns. do 2 f_equal.
    apply map_ext. intros g. symmetry.
    apply native_to_external_ext. intros op.
    by apply get_declared_metadata_ext.
  - intros k Hk. apply (check_operator_names_Ok_inv _ _ Hc).
    apply (keys_declared_metadata d). apply (keys_declared_metadata d') in Hk.
    rewrite in_app_iff in *. rewrite Hs, Ha. done.
Qed.

Lemma declaration_order_is_irrelevant_witness :
  parse_backend_yaml
    (Demo.document (Demo.declaration ["aten::add.Tensor"; "aten::mul.Tensor"]
                                     ["aten::sub.Tensor"]))
    Demo.registry
  = parse_backend_yaml
      (Demo.document (Demo.declaration
                        ["aten::mul.Tensor"; "aten::add.Tensor"; "aten::mul.Tensor"]
                        ["aten::sub.Tensor"; "aten::sub.Tensor"]))
      Demo.registry.
Proof.
  symmetry.
  rewrite (declaration_order_is_irrelevant
           (Demo.document (Demo.declaration ["aten::add.Tensor"; "aten::mul.Tensor"]
                                            ["aten::sub.Tensor"]))
           (Demo.document (Demo.declaration
                             ["aten::mul.Tensor"; "aten::add.Tensor"; "aten::mul.Tensor"]
                             ["aten::sub.Tensor"; "aten::sub.Tensor"]))
           (Demo.declaration ["aten::add.Tensor"; "aten::mul.Tensor"]
                             ["aten::sub.Tensor"])
           (Demo.declaration
              ["aten::mul.Tensor"; "aten::add.Tensor"; "aten::mul.Tensor"]
              ["aten::sub.Tensor"; "aten::sub.Tensor"])
           Demo.registry
           [Demo.op "aten::add.Tensor"; Demo.op "aten::mul.Tensor"]
           [Demo.op "aten::sub.Tensor"]
           [Demo.op "aten::mul.Tensor"; Demo.op "aten::add.Tensor"; Demo.op "aten::mul.Tensor"]
           [Demo.op "aten::sub.Tensor"; Demo.op "aten::sub.Tensor"]
           _
           ltac:(eexists; repeat split; reflexivity)
           ltac:(eexists; repeat split; reflexivity)
           eq_refl eq_refl eq_refl eq_refl eq_refl eq_refl
           ltac:(intros op; simpl; tauto) ltac:(intros op; simpl; tauto)
           eq_refl).
  reflexivity.
Defined.

(** ** A registry that grows *)

Lemma flatten_native_app reg extra :
  flatten_native (reg ++ extra) = (flatten_native reg ++ flatten_native extra)%list.
Proof. unfold flatten_native. by rewrite map_app, concat_app. Qed.

Lemma registry_names_app reg extra :
  registry_names (reg ++ extra) = (registry_names reg ++ registry_names extra)%list.
Proof. unfold registry_names. by rewrite flatten_native_app, map_app. Qed.

(** X10. Entries added at the end of the registry change nothing for
    the entries before them: whatever the document, if
    [parse_backend_yaml] returns for a registry it returns for the
    longer registry too, with the same namespace and the same entries
    followed by one entry for each added registry entry. *)
Theorem longer_registry_keeps_entries (y : yaml)
    (reg extra : list grouped_native_function) (ns : yaml)
    (es : list external_backend_function) :
  parse_backend_yaml y reg = Ok (ns, es) ->
  exists es',
    parse_backend_yaml y (reg ++ extra) = Ok (ns, (es ++ es')%list) /\
    map underlying es' = extra.
Proof.
  intros (l & b & s & a & md & -> & Hns & Hb & Hs & Ha & Hmd & Hc & ->)%parse_backend_yaml_Ok_inv.
  exists (map (native_to_external md) extra).
  split; [|apply map_underlying_native_to_external].
  rewrite <- map_app.
  apply (parse_backend_yaml_Ok_intro l (reg ++ extra) ns b s a md); try done.
  apply check_operator_names_ok. intros k Hk.
  apply mem_native_functions_map. rewrite registry_names_app, in_app_iff. left.
  apply mem_native_functions_map. by apply (check_operator_names_Ok_inv _ _ Hc).
Qed.

Lemma longer_registry_keeps_entries_witness :
  exists es',
    parse_backend_yaml
      (Demo.document (Demo.declaration ["aten::sub.Tensor"] []))
      ([Function Demo.sub] ++ [Function Demo.mul])
    = Ok (YStr "torch_xla",
          ([ExternalFunction
             {| native_function := Demo.sub;
                metadata := Some {| operator := Demo.op "aten::sub.Tensor";
                                    backend := YStr "XLA";
                                    is_autograd := false |} |}] ++ es')%list) /\
    map underlying es' = [Function Demo.mul].
Proof.
  apply (longer_registry_keeps_entries
           (Demo.document (Demo.declaration ["aten::sub.Tensor"] []))
           [Function Demo.sub] [Function Demo.mul]).
  reflexivity.
Defined.

(** ** The files [main] touches *)

(** X11. Whatever the run does, it leaves every file of the output
    directory other than [aten_xla_type.h], [aten_xla_type_default.h]
    and [aten_xla_type_default.cpp] as it found it. *)
Theorem main_touches_only_its_three_files (C : Collaborators) (y : yaml)
    (reg : list grouped_native_function) (fs : gmap string string)
    (filename : string) :
  ~ In filename artifact_names ->
  snd (main C y reg fs) !! filename = fs !! filename.
Proof.
  intros Hn. unfold main.
  destruct (parse_backend_yaml y reg) as [[ns es]|e]; [|done].
  cbn [snd]. unfold write_artifacts, fm_write.
  unfold artifact_names in Hn. simpl in Hn.
  rewrite !lookup_insert_ne; [done| | |]; intros <-; tauto.
Qed.

Lemma main_touches_only_its_three_files_witness :
  snd (main Demo.collaborators
         (Demo.document (Demo.declaration ["aten::add.Tensor"] ["aten::sub.Tensor"]))
         Demo.registry {["README.md" := "notes"]}) !! "README.md"
  = ({["README.md" := "notes"]} : gmap string string) !! "README.md".
Proof.
  apply (main_touches_only_its_three_files Demo.collaborators
           (Demo.document (Demo.declaration ["aten::add.Tensor"] ["aten::sub.Tensor"]))
           Demo.registry {["README.md" := "notes"]} "README.md").
  unfold artifact_names. simpl. intuition discriminate.
Defined.

(** ** The order of the registrations *)

Lemma filter_sublist {A} (p : A -> bool) (l : list A) :
  sublist (List.filter p l) l.
Proof.
  induction l as [|x l IH]; [constructor|].
  cbn [List.filter]. destruct (p x); by constructor.
Qed.

Lemma concatMap_sublist {A B} (f : A -> list B) (l1 l2 : list A) :
  sublist l1 l2 -> sublist (concatMap f l1) (concatMap f l2).
Proof.
  unfold concatMap. induction 1 as [|x l1 l2 _ IH|x l1 l2 _ IH]; cbn [map concat].
  - constructor.
  - by apply sublist_app.
  - by apply sublist_inserts_l.
Qed.

(** X13. The split of line 106 and line 109 keeps the order of the
    resolved entries: each of the two lists of entries is a
    subsequence of the resolved entries, the two lists have together
    as many entries as there are, and the fragments of each
    registration block come in the order they have among the
    registration fragments of all the entries. *)
Theorem registration_blocks_keep_order (C : Collaborators)
    (es : list external_backend_function) :
  sublist (plain_entries C es) es /\
  sublist (autograd_entries C es) es /\
  length (plain_entries C es) + length (autograd_entries C es) = length es /\
  sublist (dispatch_registrations C es)
          (concatMap (GenExternalAtenFallback C REGISTRATION) es) /\
  sublist (dispatch_autograd_registrations C es)
          (concatMap (GenExternalAtenFallback C REGISTRATION) es).
Proof.
  split; [apply filter_sublist|]. split; [apply filter_sublist|].
  split.
  { rewrite <- length_app. apply Permutation_length, filter_partition. }
  split; apply concatMap_sublist, filter_sublist.
Qed.

(** ** Failures that do not depend on the registry *)

(** X12. When all the names of the [supported] list parse and the
    value of [autograd] is not iterable (the [None] of a key left
    empty, a boolean, a number), the second loop raises [TypeError],
    whether or not the names of [supported] are in the registry. *)
Theorem non_iterable_autograd_is_rejected (l : list (string * yaml))
    (reg : list grouped_native_function) (ns b a : yaml) (sup : list yaml) :
  PyDict.get "cpp_namespace" l = Some ns ->
  PyDict.get "backend" l = Some b ->
  PyDict.get "supported" l = Some (YList sup) ->
  PyDict.get "autograd" l = Some a ->
  Forall (fun op => is_ok (OperatorName_parse op) = true) sup ->
  a = YNull \/ (exists x, a = YBool x) \/ (exists z, a = YInt z) ->
  parse_backend_yaml (YDict l) reg = Raise TypeError.
Proof.
  intros Hns Hb Hs Ha Hsup Hshape. unfold parse_backend_yaml, getitem.
  cbn [is_dict negb]. rewrite Hns, Hb, Hs, Ha. cbn [bind].
  unfold build_metadata. cbn [py_iter bind].
  destruct (add_metadata_returns b false sup PyDict.empty Hsup) as [md ->].
  cbn [bind]. by destruct Hshape as [->|[[x ->]|[z ->]]].
Qed.

Lemma non_iterable_autograd_is_rejected_witness :
  parse_backend_yaml
    (YDict [("cpp_namespace", YStr "torch_xla"); ("backend", YStr "XLA");
            ("supported", YList [YStr "aten::nope"]); ("autograd", YNull)])
    Demo.registry
  = Raise TypeError.
Proof.
  apply (non_iterable_autograd_is_rejected
           [("cpp_namespace", YStr "torch_xla"); ("backend", YStr "XLA");
            ("supported", YList [YStr "aten::nope"]); ("autograd", YNull)]
           Demo.registry (YStr "torch_xla") (YStr "XLA") YNull
           [YStr "aten::nope"] eq_refl eq_refl eq_refl eq_refl).
  - repeat constructor.
  - by left.
Defined.

(** X14. Of all the exceptions of [parse_backend_yaml], only that of
    line 56 depends on the registry: a call that ends with any other
    exception ends with the same exception for every registry. *)
Theorem other_failures_ignore_the_registry (y : yaml)
    (reg reg' : list grouped_native_function) (e : exn) :
  parse_backend_yaml y reg = Raise e ->
  (forall op, e <> AssertionError
                     ("Found an invalid operator name: " +:+ OperatorName.format op)) ->
  parse_backend_yaml y reg' = Raise e.
Proof.
  unfold parse_backend_yaml. intros Hp Hne.
  destruct (negb (is_dict y)); [done|].
  destruct (getitem y "cpp_namespace") as [ns|]; [|done].
  destruct (getitem y "backend") as [b|]; [|done].
  destruct (getitem y "supported") as [s|]; [|done].
  destruct (getitem y "autograd") as [a|]; [|done].
  cbn [bind] in *. destruct (build_metadata b s a) as [md|]; [|done].
  cbn [bind] in *. rewrite check_operator_names_find in Hp.
  destruct (List.find _ (PyDict.keys md)) as [k|]; [|discriminate].
  cbn [bind] in Hp. injection Hp as <-. by destruct (Hne k).
Qed.

Lemma other_failures_ignore_the_registry_witness :
  parse_backend_yaml
    (YDict [("cpp_namespace", YStr "torch_xla"); ("backend", YStr "XLA");
            ("supported", YList [YStr "aten::nope"; YStr "."]); ("autograd", YList [])])
    Demo.registry
  = Raise (ParseError (YStr ".")).
Proof.
  apply (other_failures_ignore_the_registry
           (YDict [("cpp_namespace", YStr "torch_xla"); ("backend", YStr "XLA");
                   ("supported", YList [YStr "aten::nope"; YStr "."]);
                   ("autograd", YList [])])
           [] Demo.registry (ParseError (YStr "."))).
  - reflexivity.
  - discriminate.
Defined.
